(** * Multilevel Sensor constants generator

    A shallow embedding of [scripts/generate_multilevel_sensor_constants.py]:
    the name normalizer, the model builder (scale groups and sensor types),
    the renderer, the unit index, the splice of the hand-written suffix of
    the previous constants file, and the formatter / version-control tail of
    the script.

    Python [str] values are lists of characters ([list ascii]); a Python
    [dict] is an association list in insertion order; the exceptions the
    script raises are constructors of [exn].  The builder is given twice:
    on the documents in the form the script expects, and on the documents
    as [json.loads] returns them, where it can fail on their form. *)

From Stdlib Require Import List Ascii String ZArith Lia Bool Arith.
From Stdlib Require Import Permutation Sorted DecimalString FinFun.
Import ListNotations.

Set Implicit Arguments.

(** ** Strings *)

Definition str := list ascii.

(** [py "..."] is the Python string literal ["..."]. *)
Definition py (s : string) : str := list_ascii_of_string s.

Definition chr (n : nat) : ascii := ascii_of_nat n.
Definition ord (c : ascii) : nat := nat_of_ascii c.

Definition in_range (lo hi : nat) (c : ascii) : bool :=
  (lo <=? ord c) && (ord c <=? hi).

Definition is_digit (c : ascii) : bool := in_range 48 57 c.
Definition is_upper (c : ascii) : bool := in_range 65 90 c.
Definition is_lower (c : ascii) : bool := in_range 97 122 c.
Definition is_alpha (c : ascii) : bool := is_upper c || is_lower c.

Definition lower_char (c : ascii) : ascii :=
  if is_upper c then chr (ord c + 32) else c.
Definition upper_char (c : ascii) : ascii :=
  if is_lower c then chr (ord c - 32) else c.

(** [str.lower()] and [str.upper()]. *)
Definition lower (s : str) : str := map lower_char s.
Definition upper (s : str) : str := map upper_char s.

(** [str.title()]: a letter that follows a letter is lower-cased, any other
    letter is upper-cased; [cased] says whether the previous character was
    a letter. *)
Fixpoint title_from (cased : bool) (s : str) : str :=
  match s with
  | [] => []
  | c :: r =>
      (if is_alpha c
       then (if cased then lower_char c else upper_char c)
       else c) :: title_from (is_alpha c) r
  end.

Definition title (s : str) : str := title_from false s.

Definition char_eqb (a b : ascii) : bool := Ascii.eqb a b.

Fixpoint str_eqb (a b : str) : bool :=
  match a, b with
  | [], [] => true
  | x :: a', y :: b' => char_eqb x y && str_eqb a' b'
  | _, _ => false
  end.

(** [s.startswith(p)]. *)
Fixpoint startswith (p s : str) : bool :=
  match p, s with
  | [], _ => true
  | x :: p', y :: s' => char_eqb x y && startswith p' s'
  | _ :: _, [] => false
  end.

(** [p in s] on strings. *)
Fixpoint contains (p s : str) : bool :=
  startswith p s ||
  match s with
  | [] => false
  | _ :: r => contains p r
  end.

(** [s.replace(old, new)] for a non-empty [old]: the occurrences are
    replaced from left to right, without overlap; [skip] counts the
    characters of a replaced occurrence still to be dropped. *)
Fixpoint replace_from (old new : str) (skip : nat) (s : str) : str :=
  match s with
  | [] => []
  | c :: r =>
      match skip with
      | S k => replace_from old new k r
      | O =>
          if startswith old s
          then new ++ replace_from old new (List.length old - 1) r
          else c :: replace_from old new 0 r
      end
  end.

Definition replace (old new s : str) : str := replace_from old new 0 s.

(** [s.replace(a, b)] where [a] is a single character. *)
Definition replace_char (a : ascii) (b : str) (s : str) : str :=
  flat_map (fun c => if char_eqb c a then b else [c]) s.

Definition nl : ascii := "010"%char.

(** [sep.join(parts)]. *)
Fixpoint join (sep : str) (parts : list str) : str :=
  match parts with
  | [] => []
  | [p] => p
  | p :: rest => p ++ sep ++ join sep rest
  end.

Fixpoint lstrip (p : ascii -> bool) (s : str) : str :=
  match s with
  | [] => []
  | c :: r => if p c then lstrip p r else s
  end.

Definition rstrip (p : ascii -> bool) (s : str) : str :=
  rev (lstrip p (rev s)).

(** [s.strip(chars)]. *)
Definition strip (chars : str) (s : str) : str :=
  let p := fun c => existsb (char_eqb c) chars in
  rstrip p (lstrip p s).

(** Lexicographic order on strings by character code, the order of
    Python's [sorted] on [str]. *)
Fixpoint str_leb (a b : str) : bool :=
  match a, b with
  | [], _ => true
  | _ :: _, [] => false
  | x :: a', y :: b' =>
      if ord x <? ord y then true
      else if ord y <? ord x then false
      else str_leb a' b'
  end.

(** [re.sub(p+, rep, s)] for a pattern [p+] that matches the non-empty runs
    of the characters in the class [p]; [in_run] says whether the previous
    character belonged to a run. *)
Fixpoint sub_runs (p : ascii -> bool) (rep : str) (in_run : bool) (s : str)
  : str :=
  match s with
  | [] => []
  | c :: r =>
      if p c
      then (if in_run then sub_runs p rep true r
            else rep ++ sub_runs p rep true r)
      else c :: sub_runs p rep false r
  end.

(** ** Name normalizer *)

(** [remove_parenthesis]: [re.sub(r"\([^)]*\)", "", text)].  A match starts
    at an opening parenthesis that has a closing one somewhere after it and
    runs to the first closing parenthesis; [inside] says whether the
    character read lies in a match. *)
Fixpoint remove_parenthesis_from (inside : bool) (text : str) : str :=
  match text with
  | [] => []
  | c :: r =>
      if inside
      then (if char_eqb c ")"%char
            then remove_parenthesis_from false r
            else remove_parenthesis_from true r)
      else if char_eqb c "("%char && existsb (char_eqb ")"%char) r
           then remove_parenthesis_from true r
           else c :: remove_parenthesis_from false r
  end.

Definition remove_parenthesis (text : str) : str :=
  remove_parenthesis_from false text.

(** *** The slugify dependency

    [slugify] is the function of the python-slugify package, which the
    script imports.  It is modelled on ASCII text free of HTML character
    references, where its Unicode stages (NFKD normalisation,
    transliteration, decoding of character references) leave the text as it
    is; the remaining stages are the library's, in its order. *)

Definition is_quote (c : ascii) : bool := char_eqb c "'"%char.
Definition is_dash (c : ascii) : bool := char_eqb c "-"%char.

(** [DISALLOWED_CHARS_PATTERN = [^-a-zA-Z0-9]+]. *)
Definition disallowed (c : ascii) : bool :=
  negb (is_dash c || is_alpha c || is_digit c).

(** [NUMBERS_PATTERN = (?<=\d),(?=\d)], replaced by the empty string. *)
Fixpoint clean_numbers (prev_digit : bool) (s : str) : str :=
  match s with
  | [] => []
  | c :: r =>
      if char_eqb c ","%char && prev_digit &&
         match r with n :: _ => is_digit n | [] => false end
      then clean_numbers false r
      else c :: clean_numbers (is_digit c) r
  end.

Definition slugify (text : str) (separator : str) : str :=
  (* replace quotes with dashes - pre-process *)
  let text := sub_runs is_quote (py "-") false text in
  (* make the text lowercase *)
  let text := lower text in
  (* remove generated quotes - post-process *)
  let text := sub_runs is_quote [] false text in
  (* cleanup numbers *)
  let text := clean_numbers false text in
  (* replace all other unwanted characters *)
  let text := sub_runs disallowed (py "-") false text in
  (* remove redundant dashes *)
  let text := strip (py "-") (sub_runs is_dash (py "-") false text) in
  if str_eqb separator (py "-") then text
  else replace_char "-"%char separator text.

(** The text on which this [slugify] is the library's: ASCII characters,
    none of them an ampersand, so that there is no character reference to
    decode. *)
Definition slug_text (text : str) : bool :=
  forallb (fun c => (ord c <? 128) && negb (char_eqb c "&"%char)) text.

(** [enum_name_format]: convert a sensor/scale name to enum format. *)
Definition enum_name_format (name : str) (should_remove_parenthesis : bool)
  : str :=
  let name := if should_remove_parenthesis then remove_parenthesis name
              else name in
  upper (slugify name (py "_")).

(** [normalize_name]: convert a sensor/scale name into a normalized name. *)
Definition normalize_name (name : str) : str :=
  title (replace_char "_"%char (py " ") (enum_name_format name true)).

(** [format_for_class_name]: convert a sensor/scale name to class name
    format. *)
Definition format_for_class_name (name : str) : str :=
  replace_char " "%char [] (normalize_name name) ++ py "Scale".

(** ** Values and errors *)

(** The exceptions the script can end with. *)
Inductive exn : Type :=
  | ValueError            (* int(x, 16) on a string that is no number *)
  | KeyError              (* d[k] on a dict without the key k *)
  | TypeError             (* v[k] or a name function on a value of another type *)
  | AttributeError        (* v.items() on a value that is no dict *)
  | StopIteration         (* next() on an exhausted generator *)
  | FileNotFoundError     (* read_text() of a missing file *)
  | CalledProcessError    (* subprocess.run(check=True), non-zero status *)
  | SystemExit (code : Z) (* sys.exit(code) *).

Inductive result (A : Type) : Type :=
  | Ok (a : A)
  | Raise (e : exn).

Arguments Ok {A} a.
Arguments Raise {A} e.

Definition bind {A B : Type} (r : result A) (k : A -> result B) : result B :=
  match r with
  | Ok a => k a
  | Raise e => Raise e
  end.

Notation "x <- r ;; k" := (bind r (fun x => k))
  (at level 61, r at next level, right associativity).

(** *** [int(x, 16)] *)

Definition hex_value (c : ascii) : option Z :=
  if is_digit c then Some (Z.of_nat (ord c - 48))
  else if in_range 97 102 c then Some (Z.of_nat (ord c - 87))
  else if in_range 65 70 c then Some (Z.of_nat (ord c - 55))
  else None.

(** Digits, with single underscores allowed between them. *)
Fixpoint hex_digits (acc : Z) (s : str) : option Z :=
  match s with
  | [] => Some acc
  | c :: r =>
      match hex_value c with
      | Some v => hex_digits (16 * acc + v) r
      | None =>
          if char_eqb c "_"%char then
            match r with
            | d :: r' =>
                match hex_value d with
                | Some v => hex_digits (16 * acc + v) r'
                | None => None
                end
            | [] => None
            end
          else None
      end
  end.

(** The number after the sign: an optional [0x] prefix, which an underscore
    may follow, and at least one digit. *)
Definition hex_magnitude (s : str) : option Z :=
  match s with
  | z :: x :: r =>
      if char_eqb z "0"%char &&
         (char_eqb x "x"%char || char_eqb x "X"%char)
      then match r with
           | [] => None
           | _ :: _ => hex_digits 0 r
           end
      else match hex_value z with
           | Some _ => hex_digits 0 s
           | None => None
           end
  | [z] => hex_value z
  | [] => None
  end.

(** The white space [int] skips before and after the number: the six
    characters of C's [isspace] and, as [int] first turns the white space
    beyond ASCII into spaces, the next-line and no-break-space characters.
    The separators 28 to 31, which [str.strip] removes, are not among
    them. *)
Definition int_space (c : ascii) : bool :=
  in_range 9 13 c || char_eqb c " "%char ||
  char_eqb c (chr 133) || char_eqb c (chr 160).

Definition int16 (s : str) : result Z :=
  let s := rstrip int_space (lstrip int_space s) in
  let r := match s with
           | c :: r =>
               if char_eqb c "-"%char then option_map Z.opp (hex_magnitude r)
               else if char_eqb c "+"%char then hex_magnitude r
               else hex_magnitude s
           | [] => None
           end in
  match r with
  | Some z => Ok z
  | None => Raise ValueError
  end.

(** [str(n)] for an integer. *)
Definition str_of_int (z : Z) : str :=
  list_ascii_of_string (NilZero.string_of_int (Z.to_int z)).

(** *** Dictionaries

    A [dict] keeps its items in insertion order; assigning to a key that is
    present replaces the value where the key stands. *)

Definition dict (V : Type) := list (str * V).

Fixpoint dict_get {V} (k : str) (d : dict V) : option V :=
  match d with
  | [] => None
  | (k', v) :: r => if str_eqb k k' then Some v else dict_get k r
  end.

Fixpoint dict_set {V} (k : str) (v : V) (d : dict V) : dict V :=
  match d with
  | [] => [(k, v)]
  | (k', v') :: r =>
      if str_eqb k k' then (k', v) :: r else (k', v') :: dict_set k v r
  end.

Definition keys {V} (d : dict V) : list str := map fst d.

(** [dict(items)]. *)
Definition dict_of_items {V} (items : list (str * V)) : dict V :=
  fold_left (fun d kv => dict_set (fst kv) (snd kv) d) items [].

(** [sorted(xs, key=...)]: a stable sort, by insertion. *)
Fixpoint insert_sorted {A} (key : A -> str) (x : A) (l : list A) : list A :=
  match l with
  | [] => [x]
  | y :: r =>
      if str_leb (key x) (key y) then x :: l
      else y :: insert_sorted key x r
  end.

Definition sorted {A} (key : A -> str) (l : list A) : list A :=
  fold_right (insert_sorted key) [] l.

(** [dict(sorted(d.items(), key=lambda kv: kv[0]))]. *)
Definition sort_dict {V} (d : dict V) : dict V :=
  dict_of_items (sorted fst d).

(** *** Comments of the fetched documents *)

(** [text.split(sep)] for a separator of one character. *)
Fixpoint split_on (sep : ascii) (text : str) : list str :=
  match text with
  | [] => [[]]
  | c :: r =>
      if char_eqb c sep then [] :: split_on sep r
      else match split_on sep r with
           | l :: ls => (c :: l) :: ls
           | [] => [[c]]
           end
  end.

(** The white space that [str.strip()] removes from ASCII text. *)
Definition is_space (c : ascii) : bool :=
  in_range 9 13 c || in_range 28 32 c.

(** [remove_comments]: remove comments from a JSON string. *)
Definition remove_comments (text : str) : str :=
  join [nl]
    (filter (fun line =>
               negb (startswith (py "//")
                       (rstrip is_space (lstrip is_space line))))
            (split_on nl text)).

(** ** Data model *)

(** A raw scale definition: the properties of one scale, of which the
    script reads the label. *)
Record scale_props : Type := { scale_label : str }.

(** A sensor's scale reference: a symbolic name or an inline definition. *)
Inductive scale_ref : Type :=
  | ScaleName (name : str)
  | ScaleInline (defs : dict scale_props).

Record sensor_props : Type := {
  sensor_label : str;
  sensor_scales : scale_ref
}.

(** An entry of [sensors]: the values under ["id"], ["label"], ["scale"]. *)
Record sensor : Type := {
  id : Z;
  label : str;
  scale : str
}.

(** ** Model builder *)

Fixpoint normalize_scale_loop (items : dict scale_props) (scale_def_ : dict Z)
  : result (dict Z) :=
  match items with
  | [] => Ok scale_def_
  | (scale_id, scale_props) :: rest =>
      _scale_id <- int16 scale_id ;;
      let scale_name_ := enum_name_format (scale_label scale_props) true in
      normalize_scale_loop rest (dict_set scale_name_ _scale_id scale_def_)
  end.

(** [normalize_scale_definition]: convert a scales definition dictionary
    into a normalized dictionary. *)
Definition normalize_scale_definition (scale_definitions : dict scale_props)
  : result (dict Z) :=
  scale_def_ <- normalize_scale_loop scale_definitions [] ;;
  Ok (sort_dict scale_def_).

(** The comprehension that builds [scales] from [default_scales]. *)
Fixpoint default_scale_groups (items : dict (dict scale_props))
  (scales : dict (dict Z)) : result (dict (dict Z)) :=
  match items with
  | [] => Ok scales
  | (scale_name, scale_def) :: rest =>
      d <- normalize_scale_definition scale_def ;;
      default_scale_groups rest (dict_set (normalize_name scale_name) d scales)
  end.

Definition keeps_parenthesis (sensor_id : Z) : bool :=
  (sensor_id =? 87)%Z || (sensor_id =? 88)%Z.

(** The token of a sensor type: [remove_parenthesis_] is false for the ids
    87 and 88. *)
Definition sensor_name_of (sensor_id : Z) (label : str) : str :=
  let remove_parenthesis_ := if keeps_parenthesis sensor_id then false
                             else true in
  enum_name_format label remove_parenthesis_.

(** One turn of the loop over [sensor_types.items()].  The entry of
    [sensors] is given here with its three fields at once: the script
    stores ["id"] and ["label"] first and ["scale"] last, and nothing
    reads the entry in between. *)
Definition sensor_step (st : dict (dict Z) * dict sensor)
  (item : str * sensor_props) : result (dict (dict Z) * dict sensor) :=
  let '(scales, sensors) := st in
  let '(sensor_id, sensor_props) := item in
  sensor_id <- int16 sensor_id ;;
  let scale_def := sensor_scales sensor_props in
  let sensor_name := sensor_name_of sensor_id (sensor_label sensor_props) in
  let entry := fun scale =>
    {| id := sensor_id; label := sensor_label sensor_props; scale := scale |} in
  match scale_def with
  | ScaleName scale_def =>
      let scale := normalize_name (replace (py "$SCALES:") [] scale_def) in
      Ok (scales, dict_set sensor_name (entry scale) sensors)
  | ScaleInline scale_def =>
      d <- normalize_scale_definition scale_def ;;
      Ok (dict_set sensor_name d scales,
          dict_set sensor_name (entry (normalize_name sensor_name)) sensors)
  end.

Fixpoint sensor_loop (items : dict sensor_props)
  (st : dict (dict Z) * dict sensor) : result (dict (dict Z) * dict sensor) :=
  match items with
  | [] => Ok st
  | item :: rest => st' <- sensor_step st item ;; sensor_loop rest st'
  end.

(** The two tables, from the two parsed documents. *)
Definition build (default_scales : dict (dict scale_props))
  (sensor_types : dict sensor_props)
  : result (dict (dict Z) * dict sensor) :=
  scales <- default_scale_groups default_scales [] ;;
  st <- sensor_loop sensor_types (scales, []) ;;
  Ok (sort_dict (fst st), sort_dict (snd st)).

(** ** Renderer *)

Definition dq : ascii := "034"%char.
Definition tab : ascii := "009"%char.
Definition docquote : str := [dq; dq; dq].

Definition rule : str :=
  py "# ----------------------------------------------------------------------------------- #".

(** [SENSOR_TYPE_URL]. *)
Definition SENSOR_TYPE_URL : str :=
  py "https://github.com/zwave-js/node-zwave-js/blob/master/packages/config/config/sensorTypes.json".

(** [generate_int_enum_class_definition]: an IntEnum class definition as
    a list of lines.  [id_of] is [get_id_func] where the caller gives one
    and the identity on the integers of a scale group where it does not;
    [enum_ref_url] is [None] or a string, used when it is not empty. *)
Definition generate_int_enum_class_definition {V} (class_name : str)
  (enum_map : dict V) (enum_ref_url : option str) (id_of : V -> Z)
  (docstring_info : str) (base_class : str) : list str :=
  let docstring :=
    replace (py "  ") (py " ")
      (docquote ++ py "Enum for known " ++ docstring_info ++
       py " multilevel sensor types." ++ docquote) in
  [py "class " ++ class_name ++ py "(" ++ base_class ++ py "):"] ++
  [py "    " ++ docstring] ++
  match enum_ref_url with
  | Some (c :: u) => [py "    # " ++ c :: u]
  | _ => []
  end ++
  map (fun kv => py "    " ++ fst kv ++ py " = " ++ str_of_int (id_of (snd kv)))
      enum_map.

(** [generate_int_enum_base_class]. *)
Definition generate_int_enum_base_class (class_name docstring : str)
  : list str :=
  [py "class " ++ class_name ++ py "(IntEnum):"; tab :: docstring].

(** The lines the script starts from. *)
Definition header_lines : list str :=
  [ docquote ++ py "Constants for the Multilevel Sensor CC." ++ docquote;
    [];
    rule;
    py "# **BEGINNING OF AUTOGENERATED CONTENT** (TO ADD ADDITIONAL MANUAL CONTENT, LOOK FOR  #";
    py "# THE " ++ [dq] ++ py "END OF AUTOGENERATED CONTENT" ++ [dq] ++
      py " COMMENT BLOCK AND ADD YOUR CODE BELOW IT)        #";
    rule;
    [];
    py "from __future__ import annotations";
    [];
    py "from enum import IntEnum";
    py "CC_SPECIFIC_SCALE = " ++ [dq] ++ py "scale" ++ [dq];
    py "CC_SPECIFIC_SENSOR_TYPE = " ++ [dq] ++ py "sensorType" ++ [dq];
    [] ].

Definition property_lines (sensors : dict sensor) : list str :=
  map (fun kv => fst kv ++ py "_PROPERTY = " ++ [dq] ++ label (snd kv) ++ [dq])
      sensors.

(** The class definition of one scale group. *)
Definition scale_class_lines (scale_name : str) (scale_dict : dict Z)
  : list str :=
  generate_int_enum_class_definition
    (format_for_class_name scale_name) scale_dict (Some SENSOR_TYPE_URL)
    (fun x => x) (py "scales for " ++ scale_name)
    (py "MultilevelSensorScaleType").

(** *** Unit index *)

(** [d[k].append(v)] on a [defaultdict(list)]. *)
Definition dict_append (k : str) (v : str) (d : dict (list str))
  : dict (list str) :=
  match dict_get k d with
  | Some l => dict_set k (l ++ [v]) d
  | None => dict_set k [v] d
  end.

(** The fully qualified reference of a unit in a scale group. *)
Definition unit_ref (scale_name unit_name : str) : str :=
  format_for_class_name scale_name ++ py "." ++ unit_name.

(** The inner loop over [scale_dict.keys()]. *)
Definition index_group (m : dict (list str)) (group : str * dict Z)
  : dict (list str) :=
  fold_left (fun m unit_name => dict_append unit_name
                                  (unit_ref (fst group) unit_name) m)
            (keys (snd group)) m.

(** [_unit_name_to_enum_map] after the loop over [scales.items()]. *)
Definition collect_units (scales : dict (dict Z)) : dict (list str) :=
  fold_left index_group scales [].

(** [unit_name_to_enum_map]: the collected map sorted by key, then each
    list sorted, assigned under its key while the items are visited. *)
Definition unit_name_to_enum_map (scales : dict (dict Z)) : dict (list str) :=
  let m := sort_dict (collect_units scales) in
  fold_left (fun m' kv => dict_set (fst kv) (sorted (fun x => x) (snd kv)) m')
            m m.

Definition unit_lines (m : dict (list str)) : list str :=
  map (fun kv => py "UNIT_" ++ fst kv ++
                 py ": list[MultilevelSensorScaleType] = [" ++
                 join (py ",") (sorted (fun x => x) (snd kv)) ++ py "]")
      m.

(** [multilevel_sensor_type_to_scale_map_line]. *)
Definition multilevel_sensor_type_to_scale_map_line (sensors : dict sensor)
  : str :=
  fold_left
    (fun line kv =>
       line ++ py "    MultilevelSensorType." ++ fst kv ++ py ": " ++
       format_for_class_name (scale (snd kv)) ++ py ",")
    sensors
    (py "MULTILEVEL_SENSOR_TYPE_TO_SCALE_MAP: dict[MultilevelSensorType, type[MultilevelSensorScaleType]] = {")
  ++ py "}".

Definition MARKER : str := py "**END OF AUTOGENERATED CONTENT**".

(** The block that ends the autogenerated content. *)
Definition end_block : list str :=
  [ [];
    rule;
    py "# **END OF AUTOGENERATED CONTENT** (DO NOT EDIT/REMOVE THIS COMMENT BLOCK AND DO NOT  #";
    py "# EDIT ANYTHING ABOVE IT. IF A NEW IMPORT IS NEEDED, UPDATE THE LINES AROUND 135      #";
    py "# IN scripts/generate_multilevel_sensor_constants.py THEN RE-RUN THE SCRIPT. ALL      #";
    py "# LINES WRITTEN BELOW THIS BLOCK WILL BE PRESERVED AS LONG AS THIS BLOCK REMAINS)     #";
    rule;
    [] ].

(** The autogenerated lines above the end block. *)
Definition body_lines (scales : dict (dict Z)) (sensors : dict sensor)
  : list str :=
  header_lines ++
  property_lines sensors ++
  generate_int_enum_class_definition (py "MultilevelSensorType") sensors
    (Some SENSOR_TYPE_URL) id [] (py "IntEnum") ++
  generate_int_enum_base_class (py "MultilevelSensorScaleType")
    (docquote ++ py "Common base class for multilevel sensor scale enums." ++
     docquote) ++
  flat_map (fun g => scale_class_lines (fst g) (snd g)) scales ++
  [multilevel_sensor_type_to_scale_map_line sensors; []] ++
  unit_lines (unit_name_to_enum_map scales).

(** [lines] when the script reaches the splice. *)
Definition autogenerated_lines (scales : dict (dict Z)) (sensors : dict sensor)
  : list str :=
  body_lines scales sensors ++ end_block.

(** ** Splicer *)

(** Line boundaries of [str.splitlines()] in ASCII text. *)
Definition is_linebreak (c : ascii) : bool :=
  in_range 10 13 c || in_range 28 30 c.

(** [text.splitlines()]: a carriage return and the line feed after it are
    one boundary; a boundary at the end of the text opens no line. *)
Fixpoint splitlines (text : str) : list str :=
  match text with
  | [] => []
  | c :: r =>
      if is_linebreak c then
        match r with
        | n :: r' =>
            if char_eqb c "013"%char && char_eqb n nl
            then [] :: splitlines r'
            else [] :: splitlines r
        | [] => [[]]
        end
      else
        match splitlines r with
        | [] => [[c]]
        | l :: ls => (c :: l) :: ls
        end
  end.

(** [next(i for i, x in enumerate(l) if p x)]. *)
Fixpoint next_index {A} (p : A -> bool) (l : list A) : result nat :=
  match l with
  | [] => Raise StopIteration
  | x :: r => if p x then Ok 0 else i <- next_index p r ;; Ok (S i)
  end.

(** [manually_written_code_start_idx]. *)
Definition manually_written_code_start_idx (existing_const_file : list str)
  : result nat :=
  i <- next_index (contains MARKER) existing_const_file ;; Ok (i + 6).

(** The lines to write: the autogenerated lines, then the lines of the
    existing file from the start index on. *)
Definition splice (lines existing_const_file : list str)
  : result (list str) :=
  start_idx <- manually_written_code_start_idx existing_const_file ;;
  if start_idx <? List.length existing_const_file
  then Ok (lines ++
           map (strip [nl]) (skipn start_idx existing_const_file))
  else Ok lines.

(** ** The script from the splice on *)

(** What a subprocess ends with: its exit status and what it wrote to its
    standard output. *)
Record process : Type := {
  returncode : Z;
  output : str
}.

(** [subprocess.run(args, capture_output=c, check=True).stdout]: a non-zero
    status raises; the output is [None] unless it is captured. *)
Definition run_checked (capture_output : bool) (p : process)
  : result (option str) :=
  if (returncode p =? 0)%Z
  then Ok (if capture_output then Some (output p) else None)
  else Raise CalledProcessError.

(** Python's truth value of [stdout]: [None] and the empty string are
    false. *)
Definition truthy (s : option str) : bool :=
  match s with
  | Some (_ :: _) => true
  | _ => false
  end.

(** The programs the script calls: what [which black], [black FILE],
    [which git] and [git diff --stat] end with, and the text black leaves
    in the file it formats. *)
Record tools : Type := {
  which_black : process;
  black : str -> process * str;
  which_git : process;
  git_diff_stat : process
}.

(** The world the script acts on: the constants file ([None] when there is
    none) and the lines printed. *)
Record world : Type := {
  const_file : option str;
  printed : list str
}.

Definition print (msg : str) (w : world) : world :=
  {| const_file := const_file w; printed := printed w ++ [msg] |}.

Definition write_text (text : str) (w : world) : world :=
  {| const_file := Some text; printed := printed w |}.

(** A step that ends with a value or an exception, and the world it
    leaves. *)
Definition action (A : Type) := world -> result A * world.

Definition read_text : action str :=
  fun w => match const_file w with
           | Some text => (Ok text, w)
           | None => (Raise FileNotFoundError, w)
           end.

(** Lines 243 to 261: read the existing file, splice, write. *)
Definition write_constants (lines : list str) : action unit :=
  fun w =>
    match read_text w with
    | (Raise e, w) => (Raise e, w)
    | (Ok text, w) =>
        match splice lines (splitlines text) with
        | Raise e => (Raise e, w)
        | Ok lines => (Ok tt, write_text (join [nl] lines) w)
        end
    end.

(** Lines 263 to 269: format the file with black when [which] finds it. *)
Definition format_constants (t : tools) : action unit :=
  fun w =>
    match run_checked true (which_black t) with
    | Raise e => (Raise e, w)
    | Ok stdout =>
        if truthy stdout then
          match const_file w with
          | Some text =>
              let '(p, text') := black t text in
              match run_checked false p with
              | Raise e => (Raise e, write_text text' w)
              | Ok _ => (Ok tt, write_text text' w)
              end
          | None => (Raise CalledProcessError, w)
          end
        else
          (Ok tt,
           print (py "Could not run black on new file, please run it to properly format it.") w)
    end.

(** Lines 271 to 285: the version-control check. *)
Definition check_repository (t : tools) : action unit :=
  fun w =>
    match run_checked true (which_git t) with
    | Raise e => (Raise e, w)
    | Ok stdout =>
        if truthy stdout then
          match run_checked false (git_diff_stat t) with
          | Raise e => (Raise e, w)
          | Ok stdout =>
              match stdout with
              | Some _ =>
                  (Raise (SystemExit 1),
                   print (py "Repo is dirty and needs to be committed!") w)
              | None => (Ok tt, w)
              end
          end
        else
          (Ok tt,
           print (py "Could not run `git diff --stat` on repo, please run it to determine whether constants have changed.") w)
    end.

Definition seq {A B} (a : action A) (b : action B) : action B :=
  fun w => match a w with
           | (Ok _, w') => b w'
           | (Raise e, w') => (Raise e, w')
           end.

(** The script from line 243 to its end. *)
Definition finish (t : tools) (lines : list str) : action unit :=
  seq (write_constants lines) (seq (format_constants t) (check_repository t)).

(** The whole script on the two parsed documents. *)
Definition main (t : tools) (default_scales : dict (dict scale_props))
  (sensor_types : dict sensor_props) : action unit :=
  fun w =>
    match build default_scales sensor_types with
    | Raise e => (Raise e, w)
    | Ok (scales, sensors) => finish t (autogenerated_lines scales sensors) w
    end.

(** The exit status of the process. *)
Definition exit_status (r : result unit) : Z :=
  match r with
  | Ok _ => 0
  | Raise (SystemExit code) => code
  | Raise _ => 1
  end.

(** ** Predicates used in the statements *)

(** The characters of a slug before the separator is put in. *)
Definition slug_char (c : ascii) : bool :=
  is_lower c || is_digit c || is_dash c.

(** The characters of a display name. *)
Definition plain_char (c : ascii) : bool :=
  is_alpha c || is_digit c || char_eqb c " "%char.

Definition swap_char (a b c : ascii) : ascii :=
  if char_eqb c a then b else c.


(** No two characters of the class [p] stand side by side in [s]; [prev]
    says whether a character of the class stands before [s]. *)
Fixpoint no_double (p : ascii -> bool) (prev : bool) (s : str) : bool :=
  match s with
  | [] => true
  | c :: r => if p c then negb prev && no_double p true r
              else no_double p false r
  end.

(** The text [slugify] has before it puts the separator in. *)
Definition dashed (text : str) : str :=
  strip (py "-")
    (sub_runs is_dash (py "-") false
       (sub_runs disallowed (py "-") false
          (clean_numbers false
             (sub_runs is_quote [] false
                (lower (sub_runs is_quote (py "-") false text)))))).

(** A well-formed dashed text: letters in lower case, digits and single
    dashes, none at either end. *)
Definition well_dashed (d : str) : Prop :=
  forallb slug_char d = true /\
  no_double is_dash true d = true /\
  lstrip is_dash (rev d) = rev d.

(** The display name made from a token: [_] to space, then title case. *)
Definition display (token : str) : str :=
  title (replace_char "_"%char (py " ") token).

(** The order of [sorted] as a relation, on the keys of the elements. *)
Definition key_le {A} (key : A -> str) (x y : A) : Prop :=
  str_leb (key x) (key y) = true.

Definition str_le : str -> str -> Prop := key_le (fun x => x).

(** The documents on which [int(x, 16)] reads every key. *)
Definition parses (k : str) : bool :=
  match int16 k with
  | Ok _ => true
  | Raise _ => false
  end.

Definition scale_defs_ok (defs : dict scale_props) : bool :=
  forallb (fun kp => parses (fst kp)) defs.

Definition sensor_ok (item : str * sensor_props) : bool :=
  parses (fst item) &&
  match sensor_scales (snd item) with
  | ScaleInline defs => scale_defs_ok defs
  | ScaleName _ => true
  end.

Definition documents_ok (default_scales : dict (dict scale_props))
  (sensor_types : dict sensor_props) : bool :=
  forallb (fun g => scale_defs_ok (snd g)) default_scales &&
  forallb sensor_ok sensor_types.



(** ** Sample documents *)

Definition scale_of (lab : string) : scale_props := {| scale_label := py lab |}.



Definition sensor_of (lab : string) (scales : scale_ref) : sensor_props :=
  {| sensor_label := py lab; sensor_scales := scales |}.


Definition unresolved_sensor : dict sensor_props :=
  [(py "0x01", sensor_of "Air temperature" (ScaleName (py "$SCALES:temperature")))].

(** A sensor whose label holds the text of the end marker. *)
Definition marker_sensor : dict sensor_props :=
  [(py "0x01", sensor_of "**END OF AUTOGENERATED CONTENT**"
                 (ScaleName (py "$SCALES:temperature")))].

(** A constants file that holds the end block and nothing else. *)
Definition bare_world : world :=
  {| const_file := Some (join [nl] end_block); printed := [] |}.

(** ** Predicates on files *)

(** A line without a line boundary in it. *)
Definition no_break (l : str) : bool :=
  forallb (fun c => negb (is_linebreak c)) l.



(** The list without its last line when that line is empty. *)
Fixpoint drop_final_blank (l : list str) : list str :=
  match l with
  | [] => []
  | [x] => match x with [] => [] | _ => [x] end
  | x :: r => x :: drop_final_blank r
  end.



(** A constants file from which the marker line was taken out. *)
Definition file_without_marker : str :=
  join [nl] [rule; py "X = 1"].

(** Tools that are all installed and end well; black leaves the file as it
    is. *)
Definition tools_present : tools :=
  {| which_black := {| returncode := 0; output := py "/usr/bin/black" |};
     black := fun text => ({| returncode := 0; output := [] |}, text);
     which_git := {| returncode := 0; output := py "/usr/bin/git" |};
     git_diff_stat := {| returncode := 0;
                         output := py " 1 file changed, 2 insertions(+)" |} |}.

(** ** Predicates on the unit index *)

(** The scale group [g] has the token [tok] among its keys. *)
Definition defines (tok : str) (g : str * dict Z) : bool :=
  existsb (str_eqb tok) (keys (snd g)).

(** The fully qualified references of [tok], one for each group that
    defines it, in the order of the groups. *)
Definition group_refs (tok : str) (scales : dict (dict Z)) : list str :=
  map (fun g => unit_ref (fst g) tok) (filter (defines tok) scales).

(** The list under a key of a [defaultdict(list)]. *)
Definition get_list (k : str) (d : dict (list str)) : list str :=
  match dict_get k d with
  | Some l => l
  | None => []
  end.

(** Every scale group is a dictionary: no token comes twice in it. *)
Definition groups_are_dicts (scales : dict (dict Z)) : Prop :=
  Forall (fun g => NoDup (keys (snd g))) scales.

(** The line of a unit list, with the list as it is. *)
Definition unit_line (kv : str * list str) : str :=
  py "UNIT_" ++ fst kv ++ py ": list[MultilevelSensorScaleType] = [" ++
  join (py ",") (snd kv) ++ py "]".

(** Two groups that share the unit CELSIUS. *)
Definition sample_scales : dict (dict Z) :=
  [(py "DISTANCE_FT_M", [(py "CELSIUS", 0%Z); (py "METER", 1%Z)]);
   (py "Temperature", [(py "CELSIUS", 0%Z); (py "FAHRENHEIT", 1%Z)])].

(** [f] on the value of an item. *)
Definition on_value {V} (f : V -> V) (kv : str * V) : str * V :=
  (fst kv, f (snd kv)).

(** Tools of a machine where [which] does not find git. *)
Definition tools_without_git : tools :=
  {| which_black := {| returncode := 0; output := py "/usr/bin/black" |};
     black := fun text => ({| returncode := 0; output := [] |}, text);
     which_git := {| returncode := 1; output := [] |};
     git_diff_stat := {| returncode := 127; output := [] |} |}.

Definition empty_world : world := {| const_file := None; printed := [] |}.

(** The class names of the groups that define [tok]. *)
Definition defining_classes (tok : str) (scales : dict (dict Z)) : list str :=
  map (fun g => format_for_class_name (fst g)) (filter (defines tok) scales).

(** Documents in which a shared scale group and a sensor with inline
    scales get the same class name. *)
Definition temperature_scales : dict (dict scale_props) :=
  [(py "temperature", [(py "0x00", scale_of "Celsius")])].

Definition temperature_sensor : dict sensor_props :=
  [(py "0x01", sensor_of "Temperature"
                 (ScaleInline [(py "0x00", scale_of "Celsius")]))].

(** ** Predicates for the further properties *)



(** No opening parenthesis of [s] has a closing one after it. *)
Fixpoint no_group (s : str) : bool :=
  match s with
  | [] => true
  | c :: r =>
      negb (char_eqb c "("%char && existsb (char_eqb ")"%char) r) &&
      no_group r
  end.

(** The characters of a token. *)
Definition token_char (c : ascii) : bool :=
  is_upper c || is_digit c || char_eqb c "_"%char.

Definition is_alnum (c : ascii) : bool := is_alpha c || is_digit c.



(** The tables that [build] makes of [two_temperature_sensors]. *)
Definition temperature_scale_table : dict (dict Z) :=
  [(py "TEMPERATURE", [(py "CELSIUS", 0%Z); (py "FAHRENHEIT", 1%Z)])].

Definition temperature_sensor_table : dict sensor :=
  [(py "TEMPERATURE",
    {| id := 2; label := py "Temperature (Water)";
       scale := py "Temperature" |})].


(** The two warnings of the script. *)
Definition black_warning : str :=
  py "Could not run black on new file, please run it to properly format it.".

Definition git_warning : str :=
  py "Could not run `git diff --stat` on repo, please run it to determine whether constants have changed.".

Definition dirty_message : str :=
  py "Repo is dirty and needs to be committed!".

(** A character that is neither an asterisk nor a line boundary, and a
    text of such characters. *)
Definition clean_char (c : ascii) : bool :=
  negb (char_eqb c "*"%char) && negb (is_linebreak c).










(** The entry of a sensor in the sensor-to-scale map. *)
Definition map_entry (kv : str * sensor) : str :=
  py "    MultilevelSensorType." ++ fst kv ++ py ": " ++
  format_for_class_name (scale (snd kv)) ++ py ",".

(** ** Sample tables for the scale resolution *)








(** ** The documents as [json.loads] returns them

    The builder above takes the two documents in the form the script
    expects: every scale with its label, every sensor with its label and
    its scales.  [json.loads] returns any JSON value; the script reads it
    with [items()], subscripts and [isinstance], which raise on a value of
    another form. *)

Unset Elimination Schemes.
Inductive json : Type :=
  | JNull
  | JBool (b : bool)
  | JNumber               (* an int or a float; the script reads no number *)
  | JString (s : str)
  | JArray (l : list json)
  | JObject (d : list (str * json)).
Set Elimination Schemes.

(** [v.items()]: only a dict has the method. *)
Definition dict_items (v : json) : result (dict json) :=
  match v with
  | JObject d => Ok d
  | _ => Raise AttributeError
  end.

(** [v[k]] for a string [k]: a dict without the key raises [KeyError]; a
    str or a list takes no str as index, any other value no index at all. *)
Definition getitem (v : json) (k : str) : result json :=
  match v with
  | JObject d =>
      match dict_get k d with
      | Some x => Ok x
      | None => Raise KeyError
      end
  | _ => Raise TypeError
  end.

(** The name given to [enum_name_format]: [re.sub] and [slugify] raise
    [TypeError] on a value that is no str. *)
Definition name_text (v : json) : result str :=
  match v with
  | JString s => Ok s
  | _ => Raise TypeError
  end.

Fixpoint normalize_scale_loop_json (items : dict json) (scale_def_ : dict Z)
  : result (dict Z) :=
  match items with
  | [] => Ok scale_def_
  | (scale_id, scale_props) :: rest =>
      _scale_id <- int16 scale_id ;;
      label <- getitem scale_props (py "label") ;;
      label <- name_text label ;;
      let scale_name_ := enum_name_format label true in
      normalize_scale_loop_json rest
        (dict_set scale_name_ _scale_id scale_def_)
  end.

Definition normalize_scale_definition_json (scale_definitions : json)
  : result (dict Z) :=
  its <- dict_items scale_definitions ;;
  scale_def_ <- normalize_scale_loop_json its [] ;;
  Ok (sort_dict scale_def_).

Fixpoint default_scale_groups_json (items : dict json)
  (scales : dict (dict Z)) : result (dict (dict Z)) :=
  match items with
  | [] => Ok scales
  | (scale_name, scale_def) :: rest =>
      d <- normalize_scale_definition_json scale_def ;;
      default_scale_groups_json rest
        (dict_set (normalize_name scale_name) d scales)
  end.

Definition sensor_step_json (st : dict (dict Z) * dict sensor)
  (item : str * json) : result (dict (dict Z) * dict sensor) :=
  let '(scales, sensors) := st in
  let '(sensor_id, sensor_props) := item in
  sensor_id <- int16 sensor_id ;;
  scale_def <- getitem sensor_props (py "scales") ;;
  lab <- getitem sensor_props (py "label") ;;
  lab <- name_text lab ;;
  let sensor_name := sensor_name_of sensor_id lab in
  let entry := fun scale =>
    {| id := sensor_id; label := lab; scale := scale |} in
  match scale_def with
  | JString scale_def =>
      let scale := normalize_name (replace (py "$SCALES:") [] scale_def) in
      Ok (scales, dict_set sensor_name (entry scale) sensors)
  | _ =>
      d <- normalize_scale_definition_json scale_def ;;
      Ok (dict_set sensor_name d scales,
          dict_set sensor_name (entry (normalize_name sensor_name)) sensors)
  end.

Fixpoint sensor_loop_json (items : dict json)
  (st : dict (dict Z) * dict sensor) : result (dict (dict Z) * dict sensor) :=
  match items with
  | [] => Ok st
  | item :: rest => st' <- sensor_step_json st item ;; sensor_loop_json rest st'
  end.

(** Lines 90 to 113 on the two documents as they were parsed. *)
Definition build_json (default_scales sensor_types : json)
  : result (dict (dict Z) * dict sensor) :=
  groups <- dict_items default_scales ;;
  scales <- default_scale_groups_json groups [] ;;
  sensor_items <- dict_items sensor_types ;;
  st <- sensor_loop_json sensor_items (scales, []) ;;
  Ok (sort_dict (fst st), sort_dict (snd st)).

(** The whole script on the two documents as they were parsed. *)
Definition script (t : tools) (default_scales sensor_types : json)
  : action unit :=
  fun w =>
    match build_json default_scales sensor_types with
    | Raise e => (Raise e, w)
    | Ok (scales, sensors) => finish t (autogenerated_lines scales sensors) w
    end.

(** *** Documents of the expected form *)

Definition scale_props_of (v : json) : option scale_props :=
  match v with
  | JObject d =>
      match dict_get (py "label") d with
      | Some (JString l) => Some {| scale_label := l |}
      | _ => None
      end
  | _ => None
  end.

(** The dict whose values all have the form that [f] reads. *)
Fixpoint dict_of {A} (f : json -> option A) (d : dict json)
  : option (dict A) :=
  match d with
  | [] => Some []
  | (k, v) :: r =>
      match f v, dict_of f r with
      | Some a, Some r' => Some ((k, a) :: r')
      | _, _ => None
      end
  end.

Definition scale_defs_of (v : json) : option (dict scale_props) :=
  match v with
  | JObject d => dict_of scale_props_of d
  | _ => None
  end.

Definition default_scales_of (v : json) : option (dict (dict scale_props)) :=
  match v with
  | JObject d => dict_of scale_defs_of d
  | _ => None
  end.

Definition scale_ref_of (v : json) : option scale_ref :=
  match v with
  | JString name => Some (ScaleName name)
  | _ => option_map ScaleInline (scale_defs_of v)
  end.

Definition sensor_props_of (v : json) : option sensor_props :=
  match v with
  | JObject d =>
      match dict_get (py "scales") d, dict_get (py "label") d with
      | Some s, Some (JString l) =>
          option_map (fun ref => {| sensor_label := l; sensor_scales := ref |})
                     (scale_ref_of s)
      | _, _ => None
      end
  | _ => None
  end.

Definition sensor_types_of (v : json) : option (dict sensor_props) :=
  match v with
  | JObject d => dict_of sensor_props_of d
  | _ => None
  end.

(** The exceptions of the builder. *)
Definition build_error (e : exn) : bool :=
  match e with
  | ValueError | KeyError | TypeError | AttributeError => true
  | _ => false
  end.

(** Sample documents as they are parsed. *)
Definition json_scale (lab : string) : json :=
  JObject [(py "label", JString (py lab))].

Definition json_sensor (lab : string) (scales : json) : json :=
  JObject [(py "label", JString (py lab)); (py "scales", scales)].

Definition json_temperature_scales : json :=
  JObject [(py "temperature", JObject [(py "0x00", json_scale "Celsius")])].

Definition json_two_sensors : json :=
  JObject
    [(py "0x01", json_sensor "Air temperature"
                   (JString (py "$SCALES:temperature")));
     (py "0x57", json_sensor "Distance (ft/m)"
                   (JObject [(py "0x00", json_scale "Celsius");
                             (py "0x01", json_scale "Fahrenheit")]))].

(** A sensor id that ends with the unit separator, a sensor without a
    label, a label that is a number and scales that are a list. *)
Definition json_bad_id : json :=
  JObject [(py "0x01" ++ [chr 31],
            json_sensor "Air temperature" (JString (py "$SCALES:temperature")))].

Definition json_no_label : json :=
  JObject [(py "0x01",
            JObject [(py "scales", JString (py "$SCALES:temperature"))])].

Definition json_number_label : json :=
  JObject [(py "0x01",
            JObject [(py "label", JNumber);
                     (py "scales", JString (py "$SCALES:temperature"))])].

Definition json_list_scales : json :=
  JObject [(py "0x01", json_sensor "Air temperature" (JArray []))].
(** * Properties *)

(** ** Characters *)

(** A statement about every character is settled on the 256 of them. *)
Ltac each_char :=
  intros [[] [] [] [] [] [] [] []]; vm_compute;
  try reflexivity; try discriminate; intros; try discriminate; auto.

Lemma char_eqb_eq (a b : ascii) : char_eqb a b = true <-> a = b.
Proof. unfold char_eqb. apply Ascii.eqb_eq. Qed.

Lemma char_eqb_refl (a : ascii) : char_eqb a a = true.
Proof. apply char_eqb_eq. reflexivity. Qed.

Lemma str_eqb_eq (a b : str) : str_eqb a b = true <-> a = b.
Proof.
  revert b. induction a as [|x a IH]; intros [|y b]; simpl;
    try (split; [discriminate | discriminate]); try tauto.
  rewrite andb_true_iff, char_eqb_eq, IH.
  split; [intros [-> ->]; reflexivity | intros H; inversion H; auto].
Qed.

Lemma str_eqb_refl (a : str) : str_eqb a a = true.
Proof. apply str_eqb_eq. reflexivity. Qed.

Lemma lower_upper_char : forall c, lower_char (upper_char c) = lower_char c.
Proof. each_char. Qed.

Lemma lower_lower_char : forall c, lower_char (lower_char c) = lower_char c.
Proof. each_char. Qed.

Lemma lower_not_upper : forall c, is_upper (lower_char c) = false.
Proof. each_char. Qed.

Lemma allowed_slug_char :
  forall c, disallowed c = false -> is_upper c = false -> slug_char c = true.
Proof. each_char. Qed.

Lemma slug_char_round :
  forall c, slug_char c = true ->
    lower_char (swap_char "_" " " (upper_char (swap_char "-" "_" c)))
    = swap_char "-" " " c.
Proof. each_char. Qed.

Lemma slug_char_plain :
  forall c, slug_char c = true ->
    plain_char (swap_char "_" " " (upper_char (swap_char "-" "_" c))) = true.
Proof. each_char. Qed.

Lemma plain_lower : forall c, plain_char c = true -> plain_char (lower_char c) = true.
Proof. each_char. Qed.

Lemma plain_upper : forall c, plain_char c = true -> plain_char (upper_char c) = true.
Proof. each_char. Qed.

Lemma plain_no_paren : forall c, plain_char c = true -> char_eqb c "("%char = false.
Proof. each_char. Qed.

Lemma plain_no_quote : forall c, plain_char c = true -> is_quote c = false.
Proof. each_char. Qed.

Lemma plain_no_comma : forall c, plain_char c = true -> char_eqb c ","%char = false.
Proof. each_char. Qed.

Lemma slug_space_cases :
  forall c, slug_char c = true ->
    (is_dash c = true /\ disallowed (swap_char "-" " " c) = true /\ c = "-"%char)
    \/ (is_dash c = false /\ disallowed (swap_char "-" " " c) = false
        /\ swap_char "-" " " c = c).
Proof. each_char. Qed.

Lemma slug_space_no_quote :
  forall c, slug_char c = true -> is_quote (swap_char "-" " " c) = false.
Proof. each_char. Qed.

Lemma slug_space_no_comma :
  forall c, slug_char c = true ->
    char_eqb (swap_char "-" " " c) ","%char = false.
Proof. each_char. Qed.

Lemma dash_is_slug : slug_char "-"%char = true.
Proof. reflexivity. Qed.

(** ** The normalizer on sample labels *)

Example token_of_distance :
  enum_name_format (py "Distance (ft/m)") false = py "DISTANCE_FT_M" /\
  enum_name_format (py "Distance (ft/m)") true = py "DISTANCE".
Proof. split; reflexivity. Qed.

Example display_name_of_label :
  normalize_name (py "Air temperature (2nd)") = py "Air Temperature".
Proof. reflexivity. Qed.

Example class_name_of_token :
  format_for_class_name (py "CO2_LEVEL") = py "Co2LevelScale".
Proof. reflexivity. Qed.

Example remove_parenthesis_unclosed :
  remove_parenthesis (py "a (b) c (d") = py "a  c (d".
Proof. reflexivity. Qed.

Example int16_samples :
  int16 (py "0x57") = Ok 87%Z /\ int16 (py " ff ") = Ok 255%Z /\
  int16 (py "0x") = Raise ValueError /\ int16 (py "1__0") = Raise ValueError.
Proof. repeat split; reflexivity. Qed.

Example remove_comments_sample :
  remove_comments (py "{" ++ [nl] ++ py "  // note" ++ [nl] ++ py "}")
  = py "{" ++ [nl] ++ py "}".
Proof. reflexivity. Qed.

Example splitlines_samples :
  splitlines (py "a" ++ [nl] ++ py "b" ++ [nl; nl]) = [py "a"; py "b"; []] /\
  splitlines (py "a" ++ ["013"%char; nl] ++ py "b") = [py "a"; py "b"].
Proof. split; reflexivity. Qed.

(** ** Strings *)

Lemma replace_char_map (a b : ascii) (s : str) :
  replace_char a [b] s = map (swap_char a b) s.
Proof.
  unfold replace_char, swap_char.
  induction s as [|c s IH]; simpl; [reflexivity|].
  rewrite IH. destruct (char_eqb c a); reflexivity.
Qed.

Lemma lstrip_ext (p q : ascii -> bool) (s : str) :
  (forall c, p c = q c) -> lstrip p s = lstrip q s.
Proof.
  intros E. induction s as [|c s IH]; simpl; [reflexivity|].
  rewrite E, IH. reflexivity.
Qed.

Lemma strip_dash (s : str) :
  strip (py "-") s = rstrip is_dash (lstrip is_dash s).
Proof.
  unfold strip, rstrip.
  assert (E : forall c, existsb (char_eqb c) (py "-") = is_dash c).
  { intros c. simpl. apply orb_false_r. }
  rewrite !(lstrip_ext _ is_dash _ E). reflexivity.
Qed.

Lemma forallb_rev (p : ascii -> bool) (s : str) :
  forallb p (rev s) = forallb p s.
Proof.
  induction s as [|c s IH]; simpl; [reflexivity|].
  rewrite forallb_app, IH. simpl. rewrite andb_true_r. apply andb_comm.
Qed.

Lemma lstrip_app (p : ascii -> bool) (a b : str) :
  lstrip p (a ++ b) = if forallb p a then lstrip p b else lstrip p a ++ b.
Proof.
  induction a as [|c a IH]; simpl; [reflexivity|].
  destruct (p c); simpl; [exact IH | reflexivity].
Qed.

Lemma rstrip_cons (p : ascii -> bool) (c : ascii) (r : str) :
  rstrip p (c :: r) =
  if forallb p r then (if p c then [] else [c]) else c :: rstrip p r.
Proof.
  unfold rstrip. simpl. rewrite lstrip_app, forallb_rev.
  destruct (forallb p r).
  - simpl. destruct (p c); reflexivity.
  - rewrite rev_app_distr. reflexivity.
Qed.

Lemma lstrip_idem (p : ascii -> bool) (s : str) :
  lstrip p (lstrip p s) = lstrip p s.
Proof.
  induction s as [|c s IH]; simpl; [reflexivity|].
  destruct (p c) eqn:E; [exact IH | simpl; rewrite E; reflexivity].
Qed.

Lemma forallb_lstrip (q p : ascii -> bool) (s : str) :
  forallb q s = true -> forallb q (lstrip p s) = true.
Proof.
  induction s as [|c s IH]; simpl; [auto|].
  intros H. apply andb_true_iff in H as [Hc Hs].
  destruct (p c); [auto | simpl; rewrite Hc, Hs; reflexivity].
Qed.

Lemma forallb_rstrip (q p : ascii -> bool) (s : str) :
  forallb q s = true -> forallb q (rstrip p s) = true.
Proof.
  intros H. unfold rstrip. rewrite forallb_rev.
  apply forallb_lstrip. rewrite forallb_rev. exact H.
Qed.

Lemma forallb_sub_runs (q p : ascii -> bool) (rep : str) (b : bool) (s : str) :
  forallb q rep = true -> forallb q s = true ->
  forallb q (sub_runs p rep b s) = true.
Proof.
  intros Hrep. revert b.
  induction s as [|c s IH]; intros b H; simpl; [reflexivity|].
  simpl in H. apply andb_true_iff in H as [Hc Hs].
  destruct (p c).
  - destruct b; [auto|]. rewrite forallb_app, Hrep. simpl. auto.
  - simpl. rewrite Hc. simpl. auto.
Qed.

Lemma forallb_clean_numbers (q : ascii -> bool) (b : bool) (s : str) :
  forallb q s = true -> forallb q (clean_numbers b s) = true.
Proof.
  revert b. induction s as [|c s IH]; intros b H; simpl; [reflexivity|].
  simpl in H. apply andb_true_iff in H as [Hc Hs].
  destruct (char_eqb c "," && b && _); [auto|].
  simpl. rewrite Hc. simpl. auto.
Qed.

Lemma sub_runs_none (p : ascii -> bool) (rep : str) (b : bool) (s : str) :
  forallb (fun c => negb (p c)) s = true -> sub_runs p rep b s = s.
Proof.
  revert b. induction s as [|c s IH]; intros b H; simpl; [reflexivity|].
  simpl in H. apply andb_true_iff in H as [Hc Hs].
  destruct (p c); [discriminate|]. rewrite IH; auto.
Qed.

Lemma clean_numbers_none (b : bool) (s : str) :
  forallb (fun c => negb (char_eqb c ","%char)) s = true ->
  clean_numbers b s = s.
Proof.
  revert b. induction s as [|c s IH]; intros b H; simpl; [reflexivity|].
  simpl in H. apply andb_true_iff in H as [Hc Hs].
  destruct (char_eqb c ","); [discriminate|]. simpl. rewrite IH; auto.
Qed.

Lemma remove_parenthesis_none (s : str) :
  forallb (fun c => negb (char_eqb c "("%char)) s = true ->
  remove_parenthesis s = s.
Proof.
  unfold remove_parenthesis.
  induction s as [|c s IH]; intros H; simpl; [reflexivity|].
  simpl in H. apply andb_true_iff in H as [Hc Hs].
  destruct (char_eqb c "("); [discriminate|]. simpl. rewrite IH; auto.
Qed.

Lemma forallb_impl (p q : ascii -> bool) (s : str) :
  (forall c, p c = true -> q c = true) ->
  forallb p s = true -> forallb q s = true.
Proof.
  intros I. induction s as [|c s IH]; simpl; [auto|].
  intros H. apply andb_true_iff in H as [Hc Hs].
  rewrite (I _ Hc). auto.
Qed.

Lemma lower_title (b : bool) (s : str) :
  lower (title_from b s) = lower s.
Proof.
  unfold lower. revert b.
  induction s as [|c s IH]; intros b; simpl; [reflexivity|].
  rewrite IH. f_equal.
  destruct (is_alpha c); [|reflexivity].
  destruct b; [apply lower_lower_char | apply lower_upper_char].
Qed.

Lemma forallb_title (b : bool) (s : str) :
  forallb plain_char s = true -> forallb plain_char (title_from b s) = true.
Proof.
  revert b. induction s as [|c s IH]; intros b H; simpl; [reflexivity|].
  simpl in H. apply andb_true_iff in H as [Hc Hs].
  rewrite IH by exact Hs. rewrite andb_true_r.
  destruct (is_alpha c); [|exact Hc].
  destruct b; [apply plain_lower | apply plain_upper]; exact Hc.
Qed.

(** ** The shape of a slug *)

Lemma no_double_sub_runs (p : ascii -> bool) (pc : ascii) (b : bool) (s : str) :
  p pc = true -> no_double p b (sub_runs p [pc] b s) = true.
Proof.
  intros Hp. revert b.
  induction s as [|c s IH]; intros b; simpl; [reflexivity|].
  destruct (p c) eqn:E.
  - destruct b; [apply IH|]. simpl. rewrite Hp. simpl. apply IH.
  - simpl. rewrite E. apply IH.
Qed.

Lemma no_double_weaken (p : ascii -> bool) (b : bool) (s : str) :
  no_double p true s = true -> no_double p b s = true.
Proof.
  destruct s as [|c s]; simpl; [auto|].
  destruct (p c); [discriminate | auto].
Qed.

Lemma no_double_lstrip (p : ascii -> bool) (b : bool) (s : str) :
  no_double p b s = true -> no_double p true (lstrip p s) = true.
Proof.
  revert b. induction s as [|c s IH]; intros b; simpl; [auto|].
  destruct (p c) eqn:E.
  - intros H. apply andb_true_iff in H as [_ H]. eapply IH; eauto.
  - intros H. simpl. rewrite E. exact H.
Qed.

Lemma no_double_rstrip (p : ascii -> bool) (b : bool) (s : str) :
  no_double p b s = true -> no_double p b (rstrip p s) = true.
Proof.
  revert b. induction s as [|c s IH]; intros b; [auto|].
  rewrite rstrip_cons. simpl.
  destruct (forallb p s); destruct (p c) eqn:E; simpl; rewrite ?E; auto.
  - intros H. apply andb_true_iff in H as [H1 H2]. rewrite H1. simpl. auto.
Qed.

Lemma lstrip_fixed (p : ascii -> bool) (s : str) :
  no_double p true s = true -> lstrip p s = s.
Proof.
  destruct s as [|c s]; simpl; [auto|].
  destruct (p c); [discriminate | auto].
Qed.

Lemma slug_chars_sub (b : bool) (z : str) :
  forallb (fun c => negb (is_upper c)) z = true ->
  forallb slug_char (sub_runs disallowed (py "-") b z) = true.
Proof.
  revert b. induction z as [|c z IH]; intros b Hz; simpl; [reflexivity|].
  simpl in Hz. apply andb_true_iff in Hz as [Hc Hs].
  destruct (disallowed c) eqn:E.
  - destruct b; [apply IH; exact Hs|].
    simpl. apply IH; exact Hs.
  - simpl. rewrite allowed_slug_char.
    + simpl. apply IH; exact Hs.
    + exact E.
    + destruct (is_upper c); [discriminate | reflexivity].
Qed.

(** What [slugify] leaves before the separator is well formed. *)
Lemma dashed_well (text : str) : well_dashed (dashed text).
Proof.
  unfold dashed. rewrite strip_dash.
  set (z := clean_numbers _ _).
  assert (Hz : forallb (fun c => negb (is_upper c)) z = true).
  { apply forallb_clean_numbers, forallb_sub_runs; [reflexivity|].
    apply forallb_forall. intros c Hc. unfold lower in Hc.
    apply in_map_iff in Hc as [c0 [<- _]].
    rewrite lower_not_upper. reflexivity. }
  assert (Hx : forallb slug_char (sub_runs disallowed (py "-") false z) = true)
    by (apply slug_chars_sub; exact Hz).
  set (x := sub_runs disallowed _ _ _) in *.
  repeat split.
  - apply forallb_rstrip, forallb_lstrip, forallb_sub_runs; [reflexivity | exact Hx].
  - apply no_double_rstrip. eapply no_double_lstrip.
    apply (no_double_sub_runs is_dash "-" false x). reflexivity.
  - unfold rstrip. rewrite rev_involutive. apply lstrip_idem.
Qed.

Lemma slugify_underscore (text : str) :
  slugify text (py "_") = map (swap_char "-" "_") (dashed text).
Proof. unfold slugify, dashed. simpl str_eqb. apply replace_char_map. Qed.

Lemma display_map (token : str) :
  display token = title (map (swap_char "_" " ") token).
Proof. unfold display. f_equal. apply replace_char_map. Qed.

Lemma normalize_name_display (name : str) :
  normalize_name name = display (enum_name_format name true).
Proof. reflexivity. Qed.

Lemma sub_disallowed_spaces (b : bool) (d : str) :
  forallb slug_char d = true -> no_double is_dash b d = true ->
  sub_runs disallowed (py "-") b (map (swap_char "-" " ") d) = d.
Proof.
  revert b. induction d as [|c d IH]; intros b Hd Hn; simpl; [reflexivity|].
  simpl in Hd, Hn. apply andb_true_iff in Hd as [Hc Hd].
  destruct (slug_space_cases c Hc) as [[D [X ->]]|[D [X Y]]];
    rewrite D in Hn; rewrite X.
  - apply andb_true_iff in Hn as [Hb Hn]. destruct b; [discriminate|].
    simpl. f_equal. apply IH; assumption.
  - rewrite Y. f_equal. apply IH; assumption.
Qed.

Lemma sub_dash_fixed (b : bool) (d : str) :
  no_double is_dash b d = true -> sub_runs is_dash (py "-") b d = d.
Proof.
  revert b. induction d as [|c d IH]; intros b Hn; simpl; [reflexivity|].
  simpl in Hn. destruct (is_dash c) eqn:D.
  - apply andb_true_iff in Hn as [Hb Hn]. destruct b; [discriminate|].
    apply char_eqb_eq in D. subst c. simpl. f_equal. apply IH; assumption.
  - f_equal. apply IH; assumption.
Qed.

(** The token of a display name is the token the name was made from. *)
Lemma dashed_display (d : str) :
  well_dashed d ->
  dashed (remove_parenthesis
            (display (upper (map (swap_char "-" "_") d)))) = d.
Proof.
  intros (Hc & Hn & Hl).
  set (y := display _).
  assert (Hy : forallb plain_char y = true).
  { unfold y. rewrite display_map. apply forallb_title.
    apply forallb_forall. intros c Hin. unfold upper in Hin.
    rewrite !map_map in Hin. apply in_map_iff in Hin as [c0 [<- Hin]].
    apply slug_char_plain. rewrite forallb_forall in Hc. auto. }
  assert (Hlow : lower y = map (swap_char "-" " ") d).
  { unfold y. rewrite display_map. unfold title. rewrite lower_title.
    unfold lower, upper. rewrite !map_map. apply map_ext_in.
    intros c Hin. apply slug_char_round. rewrite forallb_forall in Hc. auto. }
  rewrite remove_parenthesis_none.
  2:{ eapply forallb_impl; [|exact Hy]. intros c H. simpl.
      rewrite plain_no_paren; auto. }
  unfold dashed.
  rewrite (sub_runs_none is_quote (py "-")).
  2:{ eapply forallb_impl; [|exact Hy]. intros c H. simpl.
      rewrite plain_no_quote; auto. }
  rewrite Hlow.
  rewrite (sub_runs_none is_quote).
  2:{ apply forallb_forall. intros c Hin.
      apply in_map_iff in Hin as [c0 [<- Hin]].
      rewrite slug_space_no_quote; [reflexivity|].
      rewrite forallb_forall in Hc. auto. }
  rewrite clean_numbers_none.
  2:{ apply forallb_forall. intros c Hin.
      apply in_map_iff in Hin as [c0 [<- Hin]].
      rewrite slug_space_no_comma; [reflexivity|].
      rewrite forallb_forall in Hc. auto. }
  rewrite sub_disallowed_spaces;
    [| exact Hc | apply no_double_weaken; exact Hn].
  rewrite sub_dash_fixed by (apply no_double_weaken; exact Hn).
  rewrite strip_dash, (lstrip_fixed _ _ Hn).
  unfold rstrip. rewrite Hl. apply rev_involutive.
Qed.




(** ** Order and sorting *)


Lemma str_leb_refl (a : str) : str_leb a a = true.
Proof.
  induction a as [|x a IH]; simpl; [reflexivity|].
  rewrite Nat.ltb_irrefl. exact IH.
Qed.

Lemma str_leb_total (a b : str) : str_leb a b = false -> str_leb b a = true.
Proof.
  revert b. induction a as [|x a IH]; intros [|y b]; simpl;
    try discriminate; try reflexivity.
  destruct (ord x <? ord y) eqn:E1; [discriminate|].
  destruct (ord y <? ord x) eqn:E2; [reflexivity|]. apply IH.
Qed.

Lemma str_leb_trans (a b c : str) :
  str_leb a b = true -> str_leb b c = true -> str_leb a c = true.
Proof.
  revert b c. induction a as [|x a IH]; intros [|y b] [|z c]; simpl;
    try discriminate; try reflexivity.
  destruct (ord x <? ord y) eqn:E1; destruct (ord y <? ord x) eqn:E2;
    destruct (ord y <? ord z) eqn:E3; destruct (ord z <? ord y) eqn:E4;
    destruct (ord x <? ord z) eqn:E5; destruct (ord z <? ord x) eqn:E6;
    try discriminate; try reflexivity;
    rewrite ?Nat.ltb_lt, ?Nat.ltb_ge in *; try lia.
  apply IH.
Qed.


Section Sorting.

Context {A : Type} (key : A -> str).

Lemma insert_sorted_perm (x : A) (l : list A) :
  Permutation (insert_sorted key x l) (x :: l).
Proof.
  induction l as [|y l IH]; simpl; [reflexivity|].
  destruct (str_leb (key x) (key y)); [reflexivity|].
  rewrite IH. apply perm_swap.
Qed.

Lemma sorted_perm (l : list A) : Permutation (sorted key l) l.
Proof.
  induction l as [|x l IH]; simpl; [reflexivity|].
  rewrite insert_sorted_perm. apply perm_skip, IH.
Qed.

Lemma insert_sorted_hd (x y : A) (l : list A) :
  key_le key y x -> HdRel (key_le key) y l ->
  HdRel (key_le key) y (insert_sorted key x l).
Proof.
  intros Hyx Hl. destruct l as [|z l]; simpl.
  - constructor. exact Hyx.
  - destruct (str_leb (key x) (key z)); constructor;
      [exact Hyx | inversion Hl; assumption].
Qed.

Lemma insert_sorted_sorted (x : A) (l : list A) :
  Sorted (key_le key) l -> Sorted (key_le key) (insert_sorted key x l).
Proof.
  induction l as [|y l IH]; intros Hs; simpl.
  - repeat constructor.
  - inversion Hs as [|? ? Hl Hhd]; subst.
    destruct (str_leb (key x) (key y)) eqn:E.
    + constructor; [exact Hs | constructor; exact E].
    + constructor; [apply IH; exact Hl|].
      apply insert_sorted_hd; [apply str_leb_total; exact E | exact Hhd].
Qed.

Lemma sorted_sorted (l : list A) : Sorted (key_le key) (sorted key l).
Proof.
  induction l as [|x l IH]; simpl; [constructor|].
  apply insert_sorted_sorted, IH.
Qed.

Lemma key_le_trans : Relations_1.Transitive (key_le key).
Proof. intros x y z. unfold key_le. apply str_leb_trans. Qed.

Lemma sorted_strongly (l : list A) :
  StronglySorted (key_le key) (sorted key l).
Proof. apply Sorted_StronglySorted; [apply key_le_trans | apply sorted_sorted]. Qed.

(** Sorting a sorted list leaves it as it is. *)
Lemma sorted_fixed (l : list A) :
  Sorted (key_le key) l -> sorted key l = l.
Proof.
  induction l as [|x l IH]; intros Hs; simpl; [reflexivity|].
  inversion Hs as [|? ? Hl Hhd]; subst. rewrite (IH Hl).
  destruct l as [|y l]; simpl; [reflexivity|].
  inversion Hhd as [|? ? E]; subst. unfold key_le in E. rewrite E.
  reflexivity.
Qed.

End Sorting.

(** ** Dictionaries *)

Section Dict.

Context {V : Type}.
Implicit Types (d : dict V) (k : str) (v : V).

Lemma dict_get_set_same k v d : dict_get k (dict_set k v d) = Some v.
Proof.
  induction d as [|[k' v'] d IH]; simpl.
  - rewrite str_eqb_refl. reflexivity.
  - destruct (str_eqb k k') eqn:E; simpl; rewrite E; auto.
Qed.

Lemma dict_get_set_other k k' v d :
  k <> k' -> dict_get k (dict_set k' v d) = dict_get k d.
Proof.
  intros N. induction d as [|[k2 v2] d IH]; simpl.
  - destruct (str_eqb k k') eqn:E; [apply str_eqb_eq in E; contradiction|].
    reflexivity.
  - destruct (str_eqb k' k2) eqn:E; simpl.
    + apply str_eqb_eq in E. subst k2.
      destruct (str_eqb k k') eqn:E'; [|reflexivity].
      apply str_eqb_eq in E'. contradiction.
    + rewrite IH. reflexivity.
Qed.

Lemma dict_set_absent k v d :
  ~ In k (keys d) -> dict_set k v d = d ++ [(k, v)].
Proof.
  induction d as [|[k' v'] d IH]; simpl; intros N; [reflexivity|].
  destruct (str_eqb k k') eqn:E.
  - apply str_eqb_eq in E. subst. tauto.
  - rewrite IH; tauto.
Qed.

Lemma keys_dict_set_present k v d :
  In k (keys d) -> keys (dict_set k v d) = keys d.
Proof.
  induction d as [|[k' v'] d IH]; simpl; intros I; [contradiction|].
  destruct (str_eqb k k') eqn:E; simpl; [reflexivity|].
  f_equal. apply IH. destruct I as [->|I]; [|exact I].
  rewrite str_eqb_refl in E. discriminate.
Qed.


Lemma nodup_keys_dict_set k v d :
  NoDup (keys d) -> NoDup (keys (dict_set k v d)).
Proof.
  intros H.
  destruct (in_dec (list_eq_dec ascii_dec) k (keys d)) as [I|N].
  - rewrite keys_dict_set_present by exact I. exact H.
  - rewrite dict_set_absent by exact N. unfold keys. rewrite map_app.
    simpl. apply NoDup_app; [exact H | repeat constructor; simpl; tauto |].
    intros a Ha [<-|[]]. exact (N Ha).
Qed.

Lemma dict_get_some_in k v d : dict_get k d = Some v -> In (k, v) d.
Proof.
  induction d as [|[k' v'] d IH]; simpl; [discriminate|].
  destruct (str_eqb k k') eqn:E.
  - apply str_eqb_eq in E. subst. intros [= ->]. auto.
  - auto.
Qed.

Lemma dict_get_none k d : dict_get k d = None <-> ~ In k (keys d).
Proof.
  induction d as [|[k' v'] d IH]; simpl; [tauto|].
  destruct (str_eqb k k') eqn:E.
  - apply str_eqb_eq in E. subst. split; [discriminate | tauto].
  - rewrite IH. split; [|tauto]. intros N [->|I]; [|tauto].
    rewrite str_eqb_refl in E. discriminate.
Qed.

Lemma dict_get_in k v d :
  NoDup (keys d) -> In (k, v) d -> dict_get k d = Some v.
Proof.
  induction d as [|[k' v'] d IH]; simpl; intros H I; [contradiction|].
  inversion H as [|? ? N H']; subst.
  destruct I as [[= -> ->]|I].
  - rewrite str_eqb_refl. reflexivity.
  - destruct (str_eqb k k') eqn:E; [|auto].
    apply str_eqb_eq in E. subst. exfalso. apply N.
    apply (in_map fst) in I. exact I.
Qed.

Lemma dict_get_perm k d d' :
  Permutation d d' -> NoDup (keys d) -> dict_get k d = dict_get k d'.
Proof.
  intros P H.
  assert (H' : NoDup (keys d')).
  { eapply Permutation_NoDup; [|exact H]. apply Permutation_map, P. }
  destruct (dict_get k d) eqn:E.
  - symmetry. apply dict_get_in; [exact H'|].
    eapply Permutation_in; [exact P|]. apply dict_get_some_in, E.
  - symmetry. apply dict_get_none. apply dict_get_none in E.
    intros I. apply E. eapply Permutation_in; [|exact I].
    apply Permutation_map. symmetry. exact P.
Qed.

Lemma dict_of_items_from (acc l : dict V) :
  NoDup (keys (acc ++ l)) ->
  fold_left (fun d kv => dict_set (fst kv) (snd kv) d) l acc = acc ++ l.
Proof.
  revert acc. induction l as [|[k v] l IH]; intros acc H; simpl.
  - rewrite app_nil_r. reflexivity.
  - assert (N : ~ In k (keys acc)).
    { unfold keys in *. rewrite map_app in H. simpl in H.
      apply NoDup_remove_2 in H. rewrite in_app_iff in H. tauto. }
    rewrite dict_set_absent by exact N.
    rewrite IH; rewrite <- app_assoc; [reflexivity | exact H].
Qed.

(** [dict(items)] is [items] when no key comes twice. *)
Lemma dict_of_items_nodup (l : dict V) :
  NoDup (keys l) -> dict_of_items l = l.
Proof. intros H. apply (dict_of_items_from [] l). exact H. Qed.

Lemma sort_dict_nodup d :
  NoDup (keys d) -> sort_dict d = sorted fst d.
Proof.
  intros H. unfold sort_dict. apply dict_of_items_nodup.
  eapply Permutation_NoDup; [|exact H].
  apply Permutation_map. symmetry. apply sorted_perm.
Qed.

Lemma dict_get_sort_dict k d :
  NoDup (keys d) -> dict_get k (sort_dict d) = dict_get k d.
Proof.
  intros H. rewrite sort_dict_nodup by exact H.
  symmetry. apply dict_get_perm; [|exact H].
  symmetry. apply sorted_perm.
Qed.

Lemma nodup_keys_sort_dict d :
  NoDup (keys d) -> NoDup (keys (sort_dict d)).
Proof.
  intros H. rewrite sort_dict_nodup by exact H.
  eapply Permutation_NoDup; [|exact H].
  apply Permutation_map. symmetry. apply sorted_perm.
Qed.

End Dict.

(** ** Model builder *)

Lemma parses_ok (k : str) : parses k = true -> exists n, int16 k = Ok n.
Proof. unfold parses. destruct (int16 k); [eauto | discriminate]. Qed.

Lemma normalize_scale_loop_total (items : dict scale_props) (acc : dict Z) :
  scale_defs_ok items = true ->
  exists d, normalize_scale_loop items acc = Ok d.
Proof.
  revert acc. induction items as [|[k p] items IH]; intros acc H; simpl.
  - eauto.
  - simpl in H. apply andb_true_iff in H as [Hk H].
    destruct (parses_ok _ Hk) as [n ->]. simpl. apply IH, H.
Qed.




Lemma scale_defs_ok_app (a b : dict scale_props) :
  scale_defs_ok (a ++ b) = scale_defs_ok a && scale_defs_ok b.
Proof. apply forallb_app. Qed.


Lemma normalize_scale_definition_total (items : dict scale_props) :
  scale_defs_ok items = true ->
  exists d, normalize_scale_definition items = Ok d.
Proof.
  intros H. unfold normalize_scale_definition.
  destruct (normalize_scale_loop_total _ [] H) as [d ->]. simpl. eauto.
Qed.

Lemma default_scale_groups_total (items : dict (dict scale_props))
  (acc : dict (dict Z)) :
  forallb (fun g => scale_defs_ok (snd g)) items = true ->
  exists scales, default_scale_groups items acc = Ok scales.
Proof.
  revert acc. induction items as [|[k g] items IH]; intros acc H; simpl.
  - eauto.
  - simpl in H. apply andb_true_iff in H as [Hg H].
    destruct (normalize_scale_definition_total _ Hg) as [d ->]. simpl.
    apply IH, H.
Qed.


Lemma sensor_step_total (st : dict (dict Z) * dict sensor)
  (item : str * sensor_props) :
  sensor_ok item = true -> exists st', sensor_step st item = Ok st'.
Proof.
  destruct st as [scales sensors]. destruct item as [k p].
  unfold sensor_ok, sensor_step. simpl. intros H.
  apply andb_true_iff in H as [Hk H].
  destruct (parses_ok _ Hk) as [n ->]. simpl.
  destruct (sensor_scales p) as [name|defs]; [eauto|].
  destruct (normalize_scale_definition_total _ H) as [d ->]. simpl. eauto.
Qed.

Lemma sensor_loop_total (items : dict sensor_props)
  (st : dict (dict Z) * dict sensor) :
  forallb sensor_ok items = true -> exists st', sensor_loop items st = Ok st'.
Proof.
  revert st. induction items as [|item items IH]; intros st H; simpl.
  - eauto.
  - simpl in H. apply andb_true_iff in H as [Hi H].
    destruct (sensor_step_total st _ Hi) as [st1 ->]. simpl. apply IH, H.
Qed.





Lemma sensor_step_symbolic (scales : dict (dict Z)) (sensors : dict sensor)
  (k : str) (n : Z) (p : sensor_props) (name : str) :
  int16 k = Ok n -> sensor_scales p = ScaleName name ->
  sensor_step (scales, sensors) (k, p) =
  Ok (scales,
      dict_set (sensor_name_of n (sensor_label p))
        {| id := n; label := sensor_label p;
           scale := normalize_name (replace (py "$SCALES:") [] name) |}
        sensors).
Proof. intros Hk Hs. unfold sensor_step. rewrite Hk, Hs. reflexivity. Qed.

Lemma sensor_step_inline (scales : dict (dict Z)) (sensors : dict sensor)
  (k : str) (n : Z) (p : sensor_props) (defs : dict scale_props) (d : dict Z) :
  int16 k = Ok n -> sensor_scales p = ScaleInline defs ->
  normalize_scale_definition defs = Ok d ->
  sensor_step (scales, sensors) (k, p) =
  Ok (dict_set (sensor_name_of n (sensor_label p)) d scales,
      dict_set (sensor_name_of n (sensor_label p))
        {| id := n; label := sensor_label p;
           scale := normalize_name (sensor_name_of n (sensor_label p)) |}
        sensors).
Proof.
  intros Hk Hs Hd. unfold sensor_step. rewrite Hk, Hs. cbn [bind].
  rewrite Hd. reflexivity.
Qed.


(** ** Splicer *)

Lemma splitlines_line (x t : str) :
  no_break x = true -> splitlines (x ++ nl :: t) = x :: splitlines t.
Proof.
  unfold no_break. induction x as [|c x IH]; intros H.
  - destruct t; reflexivity.
  - simpl in H. apply andb_true_iff in H as [Hc Hx].
    change ((c :: x) ++ nl :: t) with (c :: (x ++ nl :: t)).
    cbn [splitlines]. destruct (is_linebreak c); [discriminate|].
    rewrite (IH Hx). reflexivity.
Qed.



(** No line of [splitlines] holds a line boundary. *)
Lemma splitlines_no_break (text : str) :
  forallb no_break (splitlines text) = true.
Proof.
  enough (H : forallb no_break (splitlines text) = true /\
              forallb no_break (splitlines (tl text)) = true) by apply H.
  induction text as [|c r [IH1 IH2]]; [split; reflexivity|].
  split; [|exact IH1].
  cbn [splitlines]. destruct (is_linebreak c) eqn:E.
  - destruct r as [|n r']; [reflexivity|].
    destruct (char_eqb c "013" && char_eqb n nl); simpl; assumption.
  - destruct (splitlines r) as [|l ls]; simpl.
    + unfold no_break. simpl. rewrite E. reflexivity.
    + simpl in IH1. unfold no_break in *. simpl. rewrite E. exact IH1.
Qed.

Lemma strip_newline_fixed (l : str) :
  no_break l = true -> strip [nl] l = l.
Proof.
  intros H. unfold strip, rstrip.
  set (p := fun c => existsb (char_eqb c) [nl]).
  assert (F : forall x : str, no_break x = true -> lstrip p x = x).
  { intros [|c x]; [reflexivity|]. unfold no_break. simpl. intros Hx.
    apply andb_true_iff in Hx as [Hc _].
    unfold p. simpl.
    destruct (char_eqb c nl) eqn:E; [|reflexivity].
    apply char_eqb_eq in E. subst c. discriminate. }
  rewrite (F _ H), F; [apply rev_involutive|].
  unfold no_break. rewrite forallb_rev. exact H.
Qed.

Lemma strip_newline_lines (ls : list str) :
  forallb no_break ls = true -> map (strip [nl]) ls = ls.
Proof.
  induction ls as [|l ls IH]; simpl; intros H; [reflexivity|].
  apply andb_true_iff in H as [Hl Hls].
  rewrite (strip_newline_fixed _ Hl), (IH Hls). reflexivity.
Qed.

Lemma forallb_skipn {A} (p : A -> bool) (n : nat) (l : list A) :
  forallb p l = true -> forallb p (skipn n l) = true.
Proof.
  revert l. induction n as [|n IH]; intros [|x l]; simpl; auto.
  intros H. apply andb_true_iff in H as [_ H]. auto.
Qed.

(** The splice of an existing file in which the marker stands in line
    [i]. *)
Lemma splice_found (lines existing : list str) (i : nat) :
  forallb no_break existing = true ->
  next_index (contains MARKER) existing = Ok i ->
  splice lines existing = Ok (lines ++ skipn (i + 6) existing).
Proof.
  intros Hb Hi. unfold splice, manually_written_code_start_idx.
  rewrite Hi. cbn [bind].
  destruct (i + 6 <? List.length existing) eqn:E.
  - rewrite strip_newline_lines; [reflexivity|].
    apply forallb_skipn, Hb.
  - apply Nat.ltb_ge in E. rewrite skipn_all2 by exact E.
    rewrite app_nil_r. reflexivity.
Qed.

Lemma next_index_none {A} (p : A -> bool) (l : list A) :
  (forall x, In x l -> p x = false) -> next_index p l = Raise StopIteration.
Proof.
  induction l as [|x l IH]; intros H; simpl; [reflexivity|].
  rewrite (H x (or_introl eq_refl)), IH; [reflexivity|].
  intros y Hy. apply H. right. exact Hy.
Qed.


Lemma marker_in_end_block (rest : list str) :
  next_index (contains MARKER) (end_block ++ rest) = Ok 2.
Proof. vm_compute. reflexivity. Qed.



Lemma forallb_drop_final_blank (p : str -> bool) (l : list str) :
  forallb p l = true -> forallb p (drop_final_blank l) = true.
Proof.
  induction l as [|x l IH]; [reflexivity|].
  destruct l as [|y l].
  - destruct x; simpl; auto.
  - intros H. cbn [forallb] in H. apply andb_true_iff in H as [Hx H].
    cbn [drop_final_blank forallb]. rewrite Hx. apply IH. exact H.
Qed.

Lemma join_cons (sep p : str) (l : str) (ls : list str) :
  join sep (p :: l :: ls) = p ++ sep ++ join sep (l :: ls).
Proof. reflexivity. Qed.

Lemma splitlines_nil (text : str) : splitlines text = [] -> text = [].
Proof.
  destruct text as [|c r]; [reflexivity|]. cbn [splitlines].
  destruct (is_linebreak c).
  - destruct r as [|n r']; [discriminate|].
    destruct (char_eqb c "013" && char_eqb n nl); discriminate.
  - destruct (splitlines r); discriminate.
Qed.

Lemma splitlines_after_newline (a t : str) :
  splitlines (a ++ nl :: t) = splitlines (a ++ [nl]) ++ splitlines t.
Proof.
  remember (List.length a) as n eqn:L.
  assert (Hn : List.length a <= n) by lia. clear L.
  revert a Hn. induction n as [|n IH]; intros a Hn.
  - destruct a; [|simpl in Hn; lia]. destruct t; reflexivity.
  - destruct a as [|c a']; [destruct t; reflexivity|].
    simpl in Hn. cbn [app splitlines].
    destruct (is_linebreak c) eqn:B.
    + destruct a' as [|x a''].
      * cbn [app]. rewrite char_eqb_refl, andb_true_r.
        destruct (char_eqb c "013"); [reflexivity|].
        destruct t; reflexivity.
      * cbn [app]. simpl in Hn.
        destruct (char_eqb c "013" && char_eqb x nl).
        -- rewrite (IH a'') by lia. reflexivity.
        -- change (x :: a'' ++ nl :: t) with ((x :: a'') ++ nl :: t).
           change (x :: a'' ++ [nl]) with ((x :: a'') ++ [nl]).
           rewrite (IH (x :: a'')) by (simpl; lia). reflexivity.
    + rewrite (IH a') by lia.
      destruct (splitlines (a' ++ [nl])) as [|l ls] eqn:E; [|reflexivity].
      apply splitlines_nil in E. destruct a'; discriminate.
Qed.











(** ** Unit index *)

Lemma existsb_str_eqb (t : str) (ks : list str) :
  existsb (str_eqb t) ks = true <-> In t ks.
Proof.
  rewrite existsb_exists. split.
  - intros [x [I E]]. apply str_eqb_eq in E. subst. exact I.
  - intros I. exists t. split; [exact I | apply str_eqb_refl].
Qed.

Lemma dict_append_get (t k v : str) (m : dict (list str)) :
  dict_get t (dict_append k v m) =
  if str_eqb t k then Some (get_list t m ++ [v]) else dict_get t m.
Proof.
  unfold dict_append, get_list. destruct (str_eqb t k) eqn:E.
  - apply str_eqb_eq in E. subst k.
    destruct (dict_get t m); apply dict_get_set_same.
  - assert (N : t <> k) by (intros ->; rewrite str_eqb_refl in E; discriminate).
    destruct (dict_get k m); apply dict_get_set_other; exact N.
Qed.

Lemma dict_append_nodup (k v : str) (m : dict (list str)) :
  NoDup (keys m) -> NoDup (keys (dict_append k v m)).
Proof.
  intros H. unfold dict_append.
  destruct (dict_get k m); apply nodup_keys_dict_set, H.
Qed.

Lemma index_group_get (t : str) (g : str) (ks : list str)
  (m : dict (list str)) :
  NoDup ks ->
  dict_get t (fold_left (fun m u => dict_append u (unit_ref g u) m) ks m) =
  if existsb (str_eqb t) ks
  then Some (get_list t m ++ [unit_ref g t])
  else dict_get t m.
Proof.
  revert m. induction ks as [|u ks IH]; intros m N; [reflexivity|].
  inversion N as [|? ? Hu N']; subst.
  cbn [fold_left existsb]. rewrite (IH _ N').
  unfold get_list at 1. rewrite !dict_append_get.
  destruct (str_eqb t u) eqn:E.
  - apply str_eqb_eq in E. subst u.
    destruct (existsb (str_eqb t) ks) eqn:X.
    + apply existsb_str_eqb in X. contradiction.
    + reflexivity.
  - simpl. reflexivity.
Qed.

Lemma index_group_nodup (ks : list str) (g : str) (m : dict (list str)) :
  NoDup (keys m) ->
  NoDup (keys (fold_left (fun m u => dict_append u (unit_ref g u) m) ks m)).
Proof.
  revert m. induction ks as [|u ks IH]; intros m H; [exact H|].
  simpl. apply IH, dict_append_nodup, H.
Qed.

Lemma group_refs_none (t : str) (scales : dict (dict Z)) :
  existsb (defines t) scales = false -> group_refs t scales = [].
Proof.
  unfold group_refs. induction scales as [|g scales IH]; [reflexivity|].
  simpl. destruct (defines t g); [discriminate|]. exact IH.
Qed.

Lemma collect_units_from (t : str) (scales : dict (dict Z))
  (m : dict (list str)) :
  groups_are_dicts scales ->
  dict_get t (fold_left index_group scales m) =
  if existsb (defines t) scales
  then Some (get_list t m ++ group_refs t scales)
  else dict_get t m.
Proof.
  revert m. induction scales as [|g scales IH]; intros m H; [reflexivity|].
  inversion H as [|? ? Hg H']; subst.
  cbn [fold_left existsb]. rewrite (IH _ H').
  unfold get_list at 1, index_group.
  rewrite (index_group_get _ _ _ Hg).
  unfold group_refs. cbn [filter]. fold (defines t g).
  destruct (defines t g) eqn:D.
  - cbn [orb map]. rewrite <- app_assoc. cbn [app].
    destruct (existsb (defines t) scales) eqn:X; [reflexivity|].
    fold (group_refs t scales). rewrite (group_refs_none _ _ X). reflexivity.
  - cbn [orb]. reflexivity.
Qed.

Lemma collect_units_get (t : str) (scales : dict (dict Z)) :
  groups_are_dicts scales ->
  dict_get t (collect_units scales) =
  if existsb (defines t) scales then Some (group_refs t scales) else None.
Proof.
  intros H. unfold collect_units. rewrite (collect_units_from _ _ H).
  reflexivity.
Qed.

Lemma collect_units_nodup (scales : dict (dict Z)) :
  NoDup (keys (collect_units scales)).
Proof.
  unfold collect_units.
  assert (G : forall m, NoDup (keys m) ->
                        NoDup (keys (fold_left index_group scales m))).
  { induction scales as [|g scales IH]; intros m H; [exact H|].
    simpl. apply IH. unfold index_group. apply index_group_nodup, H. }
  apply G. constructor.
Qed.

Section Values.

Context {V : Type} (f : V -> V).

Lemma dict_set_middle (k : str) (v v0 : V) (a b : dict V) :
  ~ In k (keys a) -> dict_set k v (a ++ (k, v0) :: b) = a ++ (k, v) :: b.
Proof.
  induction a as [|[k' v'] a IH]; simpl; intros N.
  - rewrite str_eqb_refl. reflexivity.
  - destruct (str_eqb k k') eqn:E.
    + apply str_eqb_eq in E. subst. tauto.
    + rewrite IH; tauto.
Qed.

Lemma keys_on_value (d : dict V) : keys (map (on_value f) d) = keys d.
Proof. unfold keys. rewrite map_map. reflexivity. Qed.

Lemma update_values_from (pre l : dict V) :
  NoDup (keys (pre ++ l)) ->
  fold_left (fun m kv => dict_set (fst kv) (f (snd kv)) m) l
    (map (on_value f) pre ++ l)
  = map (on_value f) (pre ++ l).
Proof.
  revert pre. induction l as [|[k v] l IH]; intros pre H.
  - simpl. rewrite !app_nil_r. reflexivity.
  - cbn [fold_left fst snd].
    assert (N : ~ In k (keys pre)).
    { unfold keys in *. rewrite map_app in H. simpl in H.
      apply NoDup_remove_2 in H. rewrite in_app_iff in H. tauto. }
    rewrite dict_set_middle by (rewrite keys_on_value; exact N).
    replace (pre ++ (k, v) :: l) with ((pre ++ [(k, v)]) ++ l) in *
      by (rewrite <- app_assoc; reflexivity).
    rewrite <- (IH _ H). f_equal.
    rewrite map_app, <- app_assoc. reflexivity.
Qed.

(** Assigning [f] of each value under its key, while the items are
    visited, maps [f] over the values. *)
Lemma update_values (d : dict V) :
  NoDup (keys d) ->
  fold_left (fun m kv => dict_set (fst kv) (f (snd kv)) m) d d
  = map (on_value f) d.
Proof. intros H. apply (update_values_from [] d H). Qed.

Lemma dict_get_on_value (k : str) (d : dict V) :
  dict_get k (map (on_value f) d) = option_map f (dict_get k d).
Proof.
  induction d as [|[k' v] d IH]; simpl; [reflexivity|].
  destruct (str_eqb k k'); [reflexivity | exact IH].
Qed.

End Values.

Lemma sorted_keys {V} (d : dict V) :
  Sorted (key_le fst) d -> Sorted str_le (keys d).
Proof.
  induction 1 as [|x l Hl IH Hhd]; simpl; constructor; [exact IH|].
  destruct Hhd; simpl; constructor. assumption.
Qed.

(** The unit index as a value: the collected map sorted by key, each list
    sorted. *)
Lemma unit_name_to_enum_map_value (scales : dict (dict Z)) :
  unit_name_to_enum_map scales =
  map (on_value (sorted (fun x => x)))
      (sorted fst (collect_units scales)).
Proof.
  unfold unit_name_to_enum_map.
  pose proof (collect_units_nodup scales) as N.
  rewrite update_values by (apply nodup_keys_sort_dict, N).
  rewrite sort_dict_nodup by exact N. reflexivity.
Qed.

Lemma unit_name_to_enum_map_get (t : str) (scales : dict (dict Z)) :
  groups_are_dicts scales ->
  dict_get t (unit_name_to_enum_map scales) =
  if existsb (defines t) scales
  then Some (sorted (fun x => x) (group_refs t scales))
  else None.
Proof.
  intros H. rewrite unit_name_to_enum_map_value, dict_get_on_value.
  pose proof (collect_units_nodup scales) as N.
  rewrite <- (sort_dict_nodup _ N), (dict_get_sort_dict _ _ N).
  rewrite (collect_units_get _ H).
  destruct (existsb (defines t) scales); reflexivity.
Qed.

(** ** The groups the builder makes are dictionaries *)

Lemma fold_dict_set_nodup {V} (items acc : dict V) :
  NoDup (keys acc) ->
  NoDup (keys (fold_left (fun d kv => dict_set (fst kv) (snd kv) d) items acc)).
Proof.
  revert acc. induction items as [|kv items IH]; intros acc H; [exact H|].
  simpl. apply IH, nodup_keys_dict_set, H.
Qed.

Lemma sort_dict_keys_nodup {V} (d : dict V) : NoDup (keys (sort_dict d)).
Proof. apply fold_dict_set_nodup. constructor. Qed.

Lemma normalize_scale_definition_nodup (defs : dict scale_props) (d : dict Z) :
  normalize_scale_definition defs = Ok d -> NoDup (keys d).
Proof.
  unfold normalize_scale_definition.
  destruct (normalize_scale_loop defs []); cbn [bind]; [|discriminate].
  intros [= <-]. apply sort_dict_keys_nodup.
Qed.

Lemma groups_dict_set (k : str) (v : dict Z) (scales : dict (dict Z)) :
  groups_are_dicts scales -> NoDup (keys v) ->
  groups_are_dicts (dict_set k v scales).
Proof.
  unfold groups_are_dicts. intros H Hv.
  induction scales as [|[k' v'] scales IH]; simpl.
  - repeat constructor. exact Hv.
  - inversion H; subst. destruct (str_eqb k k'); constructor; auto.
Qed.

Lemma groups_sort_dict (scales : dict (dict Z)) :
  groups_are_dicts scales -> groups_are_dicts (sort_dict scales).
Proof.
  intros H. unfold sort_dict, dict_of_items.
  assert (Hs : groups_are_dicts (sorted fst scales)).
  { unfold groups_are_dicts in *. rewrite Forall_forall in *.
    intros g Hg. apply H. eapply Permutation_in; [|exact Hg].
    apply sorted_perm. }
  assert (G : forall items acc : dict (dict Z),
             groups_are_dicts items -> groups_are_dicts acc ->
             groups_are_dicts
               (fold_left (fun d kv => dict_set (fst kv) (snd kv) d) items acc)).
  { induction items as [|kv items IH]; intros acc Hi Ha; [exact Ha|].
    inversion Hi; subst. simpl. apply IH; [assumption|].
    apply groups_dict_set; assumption. }
  apply G; [exact Hs | constructor].
Qed.

Lemma default_scale_groups_dicts (items : dict (dict scale_props))
  (acc scales : dict (dict Z)) :
  groups_are_dicts acc -> default_scale_groups items acc = Ok scales ->
  groups_are_dicts scales.
Proof.
  revert acc. induction items as [|[k defs] items IH]; intros acc Ha; simpl.
  - intros [= <-]. exact Ha.
  - destruct (normalize_scale_definition defs) as [d|] eqn:E; cbn [bind];
      [|discriminate].
    apply IH, groups_dict_set;
      [exact Ha | exact (normalize_scale_definition_nodup _ E)].
Qed.

Lemma sensor_loop_dicts (items : dict sensor_props)
  (st st' : dict (dict Z) * dict sensor) :
  groups_are_dicts (fst st) -> sensor_loop items st = Ok st' ->
  groups_are_dicts (fst st').
Proof.
  revert st. induction items as [|[k p] items IH]; intros [scales sensors] Ha.
  - intros [= <-]. exact Ha.
  - cbn [sensor_loop]. unfold sensor_step.
    destruct (int16 k) as [n|]; cbn [bind]; [|discriminate].
    destruct (sensor_scales p) as [name|defs]; cbn [bind].
    + apply IH. exact Ha.
    + destruct (normalize_scale_definition defs) as [d|] eqn:E; cbn [bind];
        [|discriminate].
      apply IH. apply groups_dict_set;
        [exact Ha | exact (normalize_scale_definition_nodup _ E)].
Qed.

(** Every scale group of a built table is a dictionary. *)
Lemma build_groups_are_dicts (default_scales : dict (dict scale_props))
  (sensor_types : dict sensor_props) (scales : dict (dict Z))
  (sensors : dict sensor) :
  build default_scales sensor_types = Ok (scales, sensors) ->
  groups_are_dicts scales.
Proof.
  unfold build.
  destruct (default_scale_groups default_scales []) as [scales0|] eqn:E0;
    cbn [bind]; [|discriminate].
  destruct (sensor_loop sensor_types (scales0, [])) as [st|] eqn:E1;
    cbn [bind]; [|discriminate].
  intros [= <- _]. apply groups_sort_dict.
  apply (sensor_loop_dicts _ _ (st' := st)) in E1; [exact E1|].
  simpl. apply (default_scale_groups_dicts _ (acc := [])) in E0;
    [exact E0 | constructor].
Qed.

(** * The properties of the specification *)

Unset Implicit Arguments.




(** C4, as the code has it.  A symbolic scale reference is never looked up
    in the scale-group table: the sensor gets the normalized display name
    of the reference (with the text "$SCALES:" taken out) whatever groups
    exist, and the build of documents whose keys are all hexadecimal
    numbers ends without an error. *)
Theorem symbolic_reference_not_looked_up :
  (forall (scales : dict (dict Z)) (sensors : dict sensor) (k : str) (n : Z)
          (p : sensor_props) (name : str),
     int16 k = Ok n -> sensor_scales p = ScaleName name ->
     sensor_step (scales, sensors) (k, p) =
     Ok (scales,
         dict_set (sensor_name_of n (sensor_label p))
           {| id := n; label := sensor_label p;
              scale := normalize_name (replace (py "$SCALES:") [] name) |}
           sensors)) /\
  (forall default_scales sensor_types,
     documents_ok default_scales sensor_types = true ->
     exists r, build default_scales sensor_types = Ok r).
Proof.
  split.
  - intros scales sensors k n p name Hk Hs.
    unfold sensor_step. rewrite Hk, Hs. reflexivity.
  - intros default_scales sensor_types Hok. unfold documents_ok in Hok.
    apply andb_true_iff in Hok as [Hd Hs]. unfold build.
    destruct (default_scale_groups_total _ [] Hd) as [scales0 ->].
    cbn [bind].
    destruct (sensor_loop_total _ (scales0, []) Hs) as [st ->]. cbn [bind].
    eauto.
Qed.

Lemma symbolic_reference_not_looked_up_witness :
  sensor_step ([], []) (py "0x01", sensor_of "Air temperature"
                                     (ScaleName (py "$SCALES:temperature"))) =
  Ok ([], [(py "AIR_TEMPERATURE",
            {| id := 1; label := py "Air temperature";
               scale := py "Temperature" |})]) /\
  (exists r, build [] unresolved_sensor = Ok r).
Proof.
  split.
  - apply (proj1 symbolic_reference_not_looked_up [] [] (py "0x01") 1%Z
             (sensor_of "Air temperature" (ScaleName (py "$SCALES:temperature")))
             (py "$SCALES:temperature")); reflexivity.
  - apply (proj2 symbolic_reference_not_looked_up [] unresolved_sensor).
    reflexivity.
Defined.

(** C4 fails as stated: with no scale group at all, a sensor that refers
    to "$SCALES:temperature" is built, pointing at the group name
    "Temperature" that no group has, and the constants file is written. *)
Lemma unresolved_reference_builds :
  build [] unresolved_sensor =
  Ok ([], [(py "AIR_TEMPERATURE",
            {| id := 1; label := py "Air temperature";
               scale := py "Temperature" |})]) /\
  dict_get (py "Temperature") (@nil (str * dict Z)) = None /\
  exists text,
    write_constants
      (autogenerated_lines []
         [(py "AIR_TEMPERATURE",
           {| id := 1; label := py "Air temperature";
              scale := py "Temperature" |})]) bare_world
    = (Ok tt, {| const_file := Some text; printed := [] |}) /\
    contains (py "MultilevelSensorType.AIR_TEMPERATURE: TemperatureScale,")
      text = true.
Proof.
  split; [vm_compute; reflexivity|]. split; [reflexivity|].
  eexists. split; vm_compute; reflexivity.
Qed.

(** C6.  Exception-id parenthesis rule: for every label, the token of a
    sensor whose id is 87 or 88 is made from the whole label, parenthetical
    content included, and the token of a sensor with any other id is made
    from the label with the parenthetical content removed first; so
    "Distance (ft/m)" gives DISTANCE_FT_M at 87 and 88 and DISTANCE at any
    other id. *)
Theorem exception_id_parenthesis_rule (lab : str) (sensor_id : Z) :
  (sensor_id = 87%Z \/ sensor_id = 88%Z ->
   sensor_name_of sensor_id lab = upper (slugify lab (py "_")) /\
   sensor_name_of sensor_id (py "Distance (ft/m)") = py "DISTANCE_FT_M") /\
  (sensor_id <> 87%Z -> sensor_id <> 88%Z ->
   sensor_name_of sensor_id lab
   = upper (slugify (remove_parenthesis lab) (py "_")) /\
   sensor_name_of sensor_id (py "Distance (ft/m)") = py "DISTANCE").
Proof.
  unfold sensor_name_of, keeps_parenthesis. split.
  - intros [-> | ->]; split; reflexivity.
  - intros H87 H88.
    apply Z.eqb_neq in H87, H88. rewrite H87, H88.
    split; reflexivity.
Qed.

Lemma exception_id_parenthesis_rule_witness :
  (sensor_name_of 87 (py "Depth (mm)") = upper (slugify (py "Depth (mm)") (py "_")) /\
   sensor_name_of 87 (py "Distance (ft/m)") = py "DISTANCE_FT_M") /\
  (sensor_name_of 5 (py "Depth (mm)")
   = upper (slugify (remove_parenthesis (py "Depth (mm)")) (py "_")) /\
   sensor_name_of 5 (py "Distance (ft/m)") = py "DISTANCE").
Proof.
  split.
  - apply (proj1 (exception_id_parenthesis_rule (py "Depth (mm)") 87)).
    left. reflexivity.
  - apply (proj2 (exception_id_parenthesis_rule (py "Depth (mm)") 5));
      discriminate.
Defined.

(** C10.  The display-name normalization is idempotent: for every string
    [s], [normalize_name (normalize_name s) = normalize_name s]; so the
    class name of a scale group is the same whether it is derived from a
    name (a token, for an inline group) or from that name's display name,
    which is how the sensor-to-scale map names the class of a group that
    the class definitions name from the token. *)
Theorem normalize_name_idempotent :
  (forall s : str, normalize_name (normalize_name s) = normalize_name s) /\
  (forall s : str,
     format_for_class_name (normalize_name s) = format_for_class_name s).
Proof.
  assert (I : forall s, normalize_name (normalize_name s) = normalize_name s).
  { intros s. rewrite !normalize_name_display.
    unfold enum_name_format at 1 3. rewrite !slugify_underscore.
    do 3 f_equal. unfold enum_name_format. rewrite slugify_underscore.
    apply dashed_display, dashed_well. }
  split; [exact I|].
  intros s. unfold format_for_class_name. rewrite I. reflexivity.
Qed.



(** C5.  When no line of the previous file holds the end marker, the
    splice raises (the [StopIteration] of [next]) and the script ends there
    with a non-zero status: the constants file is not written, nothing is
    printed, and no run of the whole script writes it either. *)
Theorem missing_marker_aborts :
  (forall lines existing : list str,
     (forall l, In l existing -> contains MARKER l = false) ->
     splice lines existing = Raise StopIteration) /\
  (forall (t : tools) (lines : list str) (w : world) (text : str),
     const_file w = Some text ->
     (forall l, In l (splitlines text) -> contains MARKER l = false) ->
     finish t lines w = (Raise StopIteration, w) /\
     exit_status (fst (finish t lines w)) <> 0%Z /\
     forall default_scales sensor_types,
       snd (main t default_scales sensor_types w) = w /\
       exists e, fst (main t default_scales sensor_types w) = Raise e).
Proof.
  assert (S : forall lines existing : list str,
             (forall l, In l existing -> contains MARKER l = false) ->
             splice lines existing = Raise StopIteration).
  { intros lines existing H. unfold splice, manually_written_code_start_idx.
    rewrite (next_index_none _ _ H). reflexivity. }
  split; [exact S|].
  intros t lines w text Hw H.
  assert (F : forall ls, finish t ls w = (Raise StopIteration, w)).
  { intros ls. unfold finish, seq, write_constants, read_text.
    rewrite Hw, (S _ _ H). reflexivity. }
  split; [apply F|]. split; [rewrite F; discriminate|].
  intros ds st. unfold main.
  destruct (build ds st) as [[scales sensors]|e].
  - rewrite F. simpl. eauto.
  - simpl. eauto.
Qed.

Lemma missing_marker_aborts_witness :
  splice [py "NEW = 0"] (splitlines file_without_marker)
  = Raise StopIteration /\
  finish tools_present [py "NEW = 0"]
    {| const_file := Some file_without_marker; printed := [] |}
  = (Raise StopIteration,
     {| const_file := Some file_without_marker; printed := [] |}).
Proof.
  assert (H : forall l, In l (splitlines file_without_marker) ->
                        contains MARKER l = false).
  { vm_compute. intros l [<- | [<- | []]]; reflexivity. }
  split.
  - apply (proj1 missing_marker_aborts). exact H.
  - apply (proj2 missing_marker_aborts tools_present [py "NEW = 0"]
             {| const_file := Some file_without_marker; printed := [] |}
             file_without_marker eq_refl H).
Defined.




(** The condition on the marker text is needed as well: a sensor whose
    label holds the marker text puts it into a property line; the second
    run then finds the marker in that line, so it keeps a part of the
    autogenerated lines of the first run as if it were hand-written, and
    the two files differ. *)
Lemma regeneration_cuts_at_marker_text :
  exists scales sensors,
    build [] marker_sensor = Ok (scales, sensors) /\
    let lines := autogenerated_lines scales sensors in
    exists w1 w2,
      write_constants lines bare_world = (Ok tt, w1) /\
      write_constants lines w1 = (Ok tt, w2) /\
      const_file w1 <> const_file w2.
Proof.
  eexists. eexists. split; [vm_compute; reflexivity|].
  eexists. eexists. split; [vm_compute; reflexivity|].
  split; [vm_compute; reflexivity|].
  intros E. apply (f_equal (fun f => match f with
                                     | Some t => List.length t
                                     | None => 0
                                     end)) in E.
  vm_compute in E. discriminate.
Qed.

(** C8, as the code has it.  Unit index completeness and order: when
    every scale group is a dictionary, the unit index has, for every token
    that is a key of some group, the list of the references [class name of
    the group + "." + token] of the groups that define the token, one for
    each such group and no other (a permutation of them), sorted
    lexicographically; the references are pairwise distinct when the
    class names of those groups are; the keys of the index are those
    tokens only, each once, in lexicographic order; and the unit lists are
    emitted as they stand in the index. *)
Theorem unit_index_complete (scales : dict (dict Z)) :
  groups_are_dicts scales ->
  let index := unit_name_to_enum_map scales in
  (forall g tok, In g scales -> In tok (keys (snd g)) ->
     exists l, dict_get tok index = Some l /\
               Permutation l (group_refs tok scales) /\
               In (unit_ref (fst g) tok) l /\
               StronglySorted str_le l /\
               (NoDup (defining_classes tok scales) -> NoDup l)) /\
  (forall tok, In tok (keys index) ->
     exists g, In g scales /\ In tok (keys (snd g))) /\
  StronglySorted str_le (keys index) /\
  NoDup (keys index) /\
  unit_lines index = map unit_line index.
Proof.
  intros H index.
  pose proof (collect_units_nodup scales) as N.
  assert (K : keys index = keys (sorted fst (collect_units scales))).
  { unfold index. rewrite unit_name_to_enum_map_value. apply keys_on_value. }
  split; [|split; [|split; [|split]]].
  - intros g tok Hg Htok.
    assert (D : existsb (defines tok) scales = true).
    { apply existsb_exists. exists g. split; [exact Hg|].
      apply existsb_str_eqb. exact Htok. }
    exists (sorted (fun x => x) (group_refs tok scales)).
    split; [|split; [|split; [|split]]].
    + unfold index. rewrite (unit_name_to_enum_map_get _ H), D. reflexivity.
    + apply sorted_perm.
    + eapply Permutation_in; [symmetry; apply sorted_perm|].
      unfold group_refs.
      apply (in_map (fun g0 => unit_ref (fst g0) tok)), filter_In.
      split; [exact Hg | apply existsb_str_eqb; exact Htok].
    + apply (sorted_strongly (fun x : str => x)).
    + intros Hc. eapply Permutation_NoDup; [symmetry; apply sorted_perm|].
      unfold group_refs, defining_classes, unit_ref in *.
      rewrite <- (map_map (fun g0 => format_for_class_name (fst g0))
                          (fun c => c ++ py "." ++ tok)).
      apply Injective_map_NoDup; [|exact Hc].
      intros a b E. apply app_inv_tail in E. exact E.
  - intros tok Hin. rewrite K in Hin.
    assert (Hin' : In tok (keys (collect_units scales))).
    { eapply Permutation_in; [|exact Hin].
      apply Permutation_map, sorted_perm. }
    destruct (existsb (defines tok) scales) eqn:D.
    + apply existsb_exists in D as [g [Hg D]]. exists g.
      split; [exact Hg | apply existsb_str_eqb; exact D].
    + exfalso. revert Hin'. apply dict_get_none.
      rewrite (collect_units_get _ H), D. reflexivity.
  - rewrite K. apply Sorted_StronglySorted.
    + apply (@key_le_trans str (fun x : str => x)).
    + apply sorted_keys, sorted_sorted.
  - rewrite K. eapply Permutation_NoDup; [|exact N].
    apply Permutation_map. symmetry. apply sorted_perm.
  - unfold unit_lines, index. rewrite unit_name_to_enum_map_value.
    apply map_ext_in. intros kv Hkv. unfold unit_line.
    apply in_map_iff in Hkv as [[k l] [<- _]]. cbn [on_value fst snd].
    rewrite (sorted_fixed (sorted_sorted (fun x : str => x) l)).
    reflexivity.
Qed.

Lemma unit_index_complete_witness :
  let index := unit_name_to_enum_map sample_scales in
  (forall g tok, In g sample_scales -> In tok (keys (snd g)) ->
     exists l, dict_get tok index = Some l /\
               Permutation l (group_refs tok sample_scales) /\
               In (unit_ref (fst g) tok) l /\
               StronglySorted str_le l /\
               (NoDup (defining_classes tok sample_scales) -> NoDup l)) /\
  (forall tok, In tok (keys index) ->
     exists g, In g sample_scales /\ In tok (keys (snd g))) /\
  StronglySorted str_le (keys index) /\
  NoDup (keys index) /\
  unit_lines index = map unit_line index.
Proof.
  apply (unit_index_complete sample_scales).
  repeat constructor; simpl; intros H;
    repeat (destruct H as [H | H]; [discriminate H|]); exact H.
Defined.

(** C8 fails as stated: a shared group "temperature" and a sensor
    "Temperature" with inline scales are two groups of the built table with
    one class name, and the list of the unit CELSIUS holds the same
    reference twice. *)
Lemma unit_index_repeats_reference :
  let scales := [(py "TEMPERATURE", [(py "CELSIUS", 0%Z)]);
                 (py "Temperature", [(py "CELSIUS", 0%Z)])] in
  build temperature_scales temperature_sensor =
  Ok (scales,
      [(py "TEMPERATURE",
        {| id := 1; label := py "Temperature"; scale := py "Temperature" |})]) /\
  dict_get (py "CELSIUS") (unit_name_to_enum_map scales) =
  Some [py "TemperatureScale.CELSIUS"; py "TemperatureScale.CELSIUS"] /\
  ~ NoDup [py "TemperatureScale.CELSIUS"; py "TemperatureScale.CELSIUS"].
Proof.
  split; [vm_compute; reflexivity|]. split; [vm_compute; reflexivity|].
  intros H. inversion H as [|? ? Hn _]. apply Hn. left. reflexivity.
Qed.

Example unit_index_sample :
  unit_name_to_enum_map sample_scales =
  [(py "CELSIUS", [py "DistanceFtMScale.CELSIUS"; py "TemperatureScale.CELSIUS"]);
   (py "FAHRENHEIT", [py "TemperatureScale.FAHRENHEIT"]);
   (py "METER", [py "DistanceFtMScale.METER"])].
Proof. vm_compute. reflexivity. Qed.

(** C9 on the code.  When [which] finds git and [git diff --stat] ends
    with status 0, the check ends normally whatever the diff printed: its
    output is not captured, so the script never sees a dirty tree and never
    leaves with status 1 on it.  When [which] does not find git it ends
    with a non-zero status itself, and the script stops on
    [CalledProcessError] instead of printing the warning. *)
Theorem dirty_tree_not_detected (t : tools) (w : world) :
  (returncode (which_git t) = 0%Z -> output (which_git t) <> [] ->
   returncode (git_diff_stat t) = 0%Z ->
   check_repository t w = (Ok tt, w) /\
   exit_status (fst (check_repository t w)) = 0%Z) /\
  (returncode (which_git t) <> 0%Z ->
   check_repository t w = (Raise CalledProcessError, w) /\
   exit_status (fst (check_repository t w)) <> 0%Z).
Proof.
  unfold check_repository, run_checked. split.
  - intros -> Hout ->. simpl.
    destruct (output (which_git t)); [contradiction|]. simpl. auto.
  - intros Hrc. apply Z.eqb_neq in Hrc. rewrite Hrc. simpl.
    split; [reflexivity | discriminate].
Qed.

Lemma dirty_tree_not_detected_witness :
  (check_repository tools_present empty_world = (Ok tt, empty_world) /\
   exit_status (fst (check_repository tools_present empty_world)) = 0%Z) /\
  (check_repository tools_without_git empty_world
   = (Raise CalledProcessError, empty_world) /\
   exit_status (fst (check_repository tools_without_git empty_world)) <> 0%Z).
Proof.
  split.
  - apply (proj1 (dirty_tree_not_detected tools_present empty_world));
      [reflexivity | discriminate | reflexivity].
  - apply (proj2 (dirty_tree_not_detected tools_without_git empty_world)).
    discriminate.
Defined.

(** * Further properties of the script *)

(** ** Comments of the fetched documents *)















(** ** Parentheses *)

Lemma remove_parenthesis_subsequence (p : ascii -> bool) (b : bool) (s : str) :
  existsb p (remove_parenthesis_from b s) = true -> existsb p s = true.
Proof.
  revert b. induction s as [|c s IH]; intros b; simpl; [auto|].
  destruct b.
  - destruct (char_eqb c ")"); intros H; apply IH in H; rewrite H;
      apply orb_true_r.
  - destruct (char_eqb c "(" && existsb (char_eqb ")"%char) s).
    + intros H. apply IH in H. rewrite H. apply orb_true_r.
    + simpl. destruct (p c); [reflexivity|]. apply IH.
Qed.

Lemma remove_parenthesis_no_group (b : bool) (s : str) :
  no_group (remove_parenthesis_from b s) = true.
Proof.
  revert b. induction s as [|c s IH]; intros b; simpl; [reflexivity|].
  destruct b.
  - destruct (char_eqb c ")"); apply IH.
  - destruct (char_eqb c "(" && existsb (char_eqb ")"%char) s) eqn:E;
      [apply IH|].
    simpl. rewrite IH, andb_true_r.
    destruct (char_eqb c "("); [|reflexivity]. simpl in *.
    destruct (existsb (char_eqb ")"%char) (remove_parenthesis_from false s))
      eqn:X; [|reflexivity].
    apply remove_parenthesis_subsequence in X. congruence.
Qed.

Lemma remove_parenthesis_fixed (s : str) :
  no_group s = true -> remove_parenthesis s = s.
Proof.
  unfold remove_parenthesis.
  induction s as [|c s IH]; simpl; [reflexivity|].
  intros H. apply andb_true_iff in H as [Hc Hs].
  apply negb_true_iff in Hc. rewrite Hc, (IH Hs). reflexivity.
Qed.

Lemma remove_parenthesis_length (b : bool) (s : str) :
  List.length (remove_parenthesis_from b s) <= List.length s.
Proof.
  revert b. induction s as [|c s IH]; intros b; simpl; [lia|].
  destruct b.
  - destruct (char_eqb c ")"); [specialize (IH false) | specialize (IH true)];
      lia.
  - destruct (char_eqb c "(" && existsb (char_eqb ")"%char) s); simpl;
      [specialize (IH true) | specialize (IH false)]; lia.
Qed.

(** X3.  [remove_parenthesis] removes every group it can: in its result
    no opening parenthesis has a closing one after it, so a second pass
    changes nothing; and a text in which no opening parenthesis has a
    closing one after it (an unclosed "(", a lone ")") is returned as it
    is.  The result is never longer than the text. *)
Theorem remove_parenthesis_idempotent (text : str) :
  no_group (remove_parenthesis text) = true /\
  remove_parenthesis (remove_parenthesis text) = remove_parenthesis text /\
  (no_group text = true -> remove_parenthesis text = text) /\
  List.length (remove_parenthesis text) <= List.length text.
Proof.
  pose proof (remove_parenthesis_no_group false text) as G.
  split; [exact G|]. split; [|split].
  - apply remove_parenthesis_fixed. exact G.
  - apply remove_parenthesis_fixed.
  - apply remove_parenthesis_length.
Qed.

Lemma remove_parenthesis_idempotent_witness :
  no_group (remove_parenthesis (py "a (b")) = true /\
  remove_parenthesis (remove_parenthesis (py "a (b"))
  = remove_parenthesis (py "a (b") /\
  (no_group (py "a (b") = true -> remove_parenthesis (py "a (b") = py "a (b") /\
  List.length (remove_parenthesis (py "a (b")) <= List.length (py "a (b").
Proof. apply (remove_parenthesis_idempotent (py "a (b")). Defined.

Lemma remove_parenthesis_outside (a t : str) :
  forallb (fun c => negb (char_eqb c "("%char)) a = true ->
  remove_parenthesis_from false (a ++ t) = a ++ remove_parenthesis_from false t.
Proof.
  induction a as [|c a IH]; intros H; [reflexivity|].
  simpl in H. apply andb_true_iff in H as [Hc Ha].
  apply negb_true_iff in Hc. cbn [app remove_parenthesis_from].
  rewrite Hc, (IH Ha). reflexivity.
Qed.

Lemma remove_parenthesis_inside (b t : str) :
  forallb (fun c => negb (char_eqb c ")"%char)) b = true ->
  remove_parenthesis_from true (b ++ ")"%char :: t)
  = remove_parenthesis_from false t.
Proof.
  induction b as [|c b IH]; intros H; [reflexivity|].
  simpl in H. apply andb_true_iff in H as [Hc Hb].
  apply negb_true_iff in Hc. cbn [app remove_parenthesis_from].
  rewrite Hc. apply IH, Hb.
Qed.

(** X4.  One group: in a text [a ( b ) c] where [a] holds no opening and
    [b] no closing parenthesis, [remove_parenthesis] takes out the
    parentheses and [b] (which may hold opening parentheses: the group ends
    at the first closing one) and goes on with [c]. *)
Theorem remove_parenthesis_group (a b c : str) :
  forallb (fun x => negb (char_eqb x "("%char)) a = true ->
  forallb (fun x => negb (char_eqb x ")"%char)) b = true ->
  remove_parenthesis (a ++ py "(" ++ b ++ py ")" ++ c)
  = a ++ remove_parenthesis c.
Proof.
  intros Ha Hb. unfold remove_parenthesis.
  rewrite (remove_parenthesis_outside _ _ Ha). f_equal.
  change (py "(" ++ b ++ py ")" ++ c) with ("("%char :: (b ++ ")"%char :: c)).
  cbn [remove_parenthesis_from].
  replace (existsb (char_eqb ")"%char) (b ++ ")"%char :: c)) with true.
  - simpl. apply remove_parenthesis_inside, Hb.
  - symmetry. rewrite existsb_app. simpl. apply orb_true_r.
Qed.

Lemma remove_parenthesis_group_witness :
  remove_parenthesis (py "Depth " ++ py "(" ++ py "a(b" ++ py ")" ++ py "c)")
  = py "Depth " ++ remove_parenthesis (py "c)").
Proof.
  apply (remove_parenthesis_group (py "Depth ") (py "a(b") (py "c)"));
    reflexivity.
Defined.

(** ** The shape of tokens and class names *)

Lemma token_char_of_slug :
  forall c, slug_char c = true ->
    token_char (upper_char (swap_char "-" "_" c)) = true /\
    char_eqb (upper_char (swap_char "-" "_" c)) "_" = is_dash c.
Proof. each_char. Qed.

Lemma plain_char_of_token :
  forall c, token_char c = true ->
    plain_char (swap_char "_" " " c) = true /\
    char_eqb (swap_char "_" " " c) " " = char_eqb c "_".
Proof. each_char. Qed.

Lemma alnum_of_plain :
  forall c, plain_char c = true -> char_eqb c " " = false -> is_alnum c = true.
Proof. each_char. Qed.

Lemma title_keeps_space :
  forall c, char_eqb (lower_char c) " " = char_eqb c " " /\
            char_eqb (upper_char c) " " = char_eqb c " ".
Proof. each_char. Qed.

Lemma enum_name_format_dashed (name : str) (b : bool) :
  exists d, well_dashed d /\
            enum_name_format name b
            = map (fun c => upper_char (swap_char "-" "_" c)) d.
Proof.
  unfold enum_name_format. rewrite slugify_underscore.
  eexists. split; [apply dashed_well|]. unfold upper. apply map_map.
Qed.

Lemma no_double_map (p q : ascii -> bool) (f : ascii -> ascii) (r : ascii -> bool)
  (b : bool) (s : str) :
  (forall c, r c = true -> q (f c) = p c) ->
  forallb r s = true ->
  no_double q b (map f s) = no_double p b s.
Proof.
  intros E. revert b. induction s as [|c s IH]; intros b H; [reflexivity|].
  simpl in H. apply andb_true_iff in H as [Hc Hs].
  simpl. rewrite (E _ Hc), !(IH _ Hs). reflexivity.
Qed.

Lemma lstrip_map (p q : ascii -> bool) (f : ascii -> ascii) (r : ascii -> bool)
  (s : str) :
  (forall c, r c = true -> q (f c) = p c) ->
  forallb r s = true ->
  lstrip q (map f s) = map f (lstrip p s).
Proof.
  intros E. induction s as [|c s IH]; intros H; [reflexivity|].
  simpl in H. apply andb_true_iff in H as [Hc Hs].
  simpl. rewrite (E _ Hc), (IH Hs). destruct (p c); reflexivity.
Qed.

Lemma no_double_contains (p : ascii -> bool) (x : ascii) (b : bool) (s : str) :
  p x = true -> no_double p b s = true -> contains [x; x] s = false.
Proof.
  intros Hx. revert b. induction s as [|c s IH]; intros b H; [reflexivity|].
  cbn [contains]. simpl in H.
  assert (T : contains [x; x] s = false).
  { destruct (p c); [apply andb_true_iff in H as [_ H]|]; eapply IH; eauto. }
  rewrite T, orb_false_r. simpl.
  destruct (char_eqb x c) eqn:E1; [|reflexivity].
  apply char_eqb_eq in E1. subst c. rewrite Hx in H.
  apply andb_true_iff in H as [_ H].
  destruct s as [|c2 s]; [reflexivity|]. simpl.
  destruct (char_eqb x c2) eqn:E2; [|reflexivity].
  apply char_eqb_eq in E2. subst c2. simpl in H. rewrite Hx in H.
  discriminate.
Qed.

Lemma strip_fixed (x : ascii) (s : str) :
  no_double (fun c => char_eqb c x) true s = true ->
  lstrip (fun c => char_eqb c x) (rev s) = rev s ->
  strip [x] s = s.
Proof.
  intros Hn Hl. unfold strip, rstrip.
  assert (E : forall c, existsb (char_eqb c) [x] = char_eqb c x).
  { intros c. simpl. apply orb_false_r. }
  rewrite !(lstrip_ext _ (fun c => char_eqb c x) _ E).
  rewrite (lstrip_fixed _ _ Hn), Hl. apply rev_involutive.
Qed.

(** The shape of a token, on the side of the underscores. *)
Lemma token_underscores (name : str) (b : bool) :
  no_double (fun c => char_eqb c "_"%char) true (enum_name_format name b) = true /\
  lstrip (fun c => char_eqb c "_"%char) (rev (enum_name_format name b))
  = rev (enum_name_format name b) /\
  forallb token_char (enum_name_format name b) = true.
Proof.
  destruct (enum_name_format_dashed name b) as (d & (Hc & Hn & Hl) & ->).
  set (f := fun c => upper_char (swap_char "-" "_" c)).
  assert (E : forall c, slug_char c = true ->
                        (fun c => char_eqb c "_"%char) (f c) = is_dash c).
  { intros c H. apply (token_char_of_slug c H). }
  split; [|split].
  - rewrite (no_double_map is_dash _ f slug_char true d E Hc). exact Hn.
  - rewrite <- map_rev.
    rewrite (lstrip_map is_dash _ f slug_char (rev d) E), Hl; [reflexivity|].
    rewrite forallb_rev. exact Hc.
  - apply forallb_forall. intros c Hin.
    apply in_map_iff in Hin as [c0 [<- Hin]].
    rewrite forallb_forall in Hc. apply (token_char_of_slug c0 (Hc _ Hin)).
Qed.

(** X5.  The shape of a token: whatever the name and the flag,
    [enum_name_format] returns upper-case letters, digits and underscores
    only, with no underscore at either end and no two underscores side by
    side. *)
Theorem enum_name_format_shape (name : str) (b : bool) :
  forallb token_char (enum_name_format name b) = true /\
  strip (py "_") (enum_name_format name b) = enum_name_format name b /\
  contains (py "__") (enum_name_format name b) = false.
Proof.
  destruct (token_underscores name b) as (Hn & Hl & Hc).
  split; [exact Hc|]. split.
  - apply (strip_fixed "_"%char _ Hn Hl).
  - apply (no_double_contains (fun c => char_eqb c "_"%char) "_"%char true _
             eq_refl Hn).
Qed.

Lemma no_double_related (p q : ascii -> bool) (b : bool) (s s' : str) :
  Forall2 (fun c c' => q c' = p c) s s' ->
  no_double q b s' = no_double p b s.
Proof.
  intros H. revert b. induction H as [|c c' s s' Hc _ IH]; intros b;
    [reflexivity|].
  simpl. rewrite Hc, !IH. reflexivity.
Qed.

Lemma lstrip_fixed_related (p q : ascii -> bool) (s s' : str) :
  Forall2 (fun c c' => q c' = p c) s s' ->
  lstrip p s = s -> lstrip q s' = s'.
Proof.
  intros H. destruct H as [|c c' s s' Hc H]; [reflexivity|].
  simpl. rewrite Hc. destruct (p c); [|reflexivity].
  intros E. exfalso.
  assert (L : List.length (lstrip p s) <= List.length s).
  { clear. induction s as [|x s IH]; simpl; [lia|].
    destruct (p x); simpl; lia. }
  rewrite E in L. simpl in L. lia.
Qed.

Lemma related_rev (p q : ascii -> bool) (s s' : str) :
  Forall2 (fun c c' => q c' = p c) s s' ->
  Forall2 (fun c c' => q c' = p c) (rev s) (rev s').
Proof.
  induction 1 as [|c c' s s' Hc _ IH]; simpl; [constructor|].
  apply Forall2_app; [exact IH | repeat constructor; exact Hc].
Qed.

Lemma title_related (b : bool) (s : str) :
  Forall2 (fun c c' => char_eqb c' " " = char_eqb c " ") s (title_from b s).
Proof.
  revert b. induction s as [|c s IH]; intros b; simpl; constructor;
    [|apply IH].
  destruct (is_alpha c); [|reflexivity].
  destruct b; apply (title_keeps_space c).
Qed.

Lemma map_related (p q r : ascii -> bool) (f : ascii -> ascii) (s : str) :
  (forall c, r c = true -> q (f c) = p c) ->
  forallb r s = true ->
  Forall2 (fun c c' => q c' = p c) s (map f s).
Proof.
  intros E. induction s as [|c s IH]; intros H; simpl; constructor.
  - simpl in H. apply andb_true_iff in H as [Hc _]. apply E, Hc.
  - simpl in H. apply andb_true_iff in H as [_ Hs]. apply IH, Hs.
Qed.

Lemma normalize_name_plain (name : str) :
  forallb plain_char (normalize_name name) = true.
Proof.
  destruct (token_underscores name true) as (_ & _ & Hc).
  rewrite normalize_name_display, display_map.
  apply forallb_title. apply forallb_forall. intros c Hin.
  apply in_map_iff in Hin as [c0 [<- Hin]].
  rewrite forallb_forall in Hc. apply (plain_char_of_token c0 (Hc _ Hin)).
Qed.

Lemma class_name_alnum (name : str) :
  forallb is_alnum (format_for_class_name name) = true.
Proof.
  pose proof (normalize_name_plain name) as P.
  unfold format_for_class_name. rewrite forallb_app. apply andb_true_iff.
  split; [|reflexivity].
  apply forallb_forall. intros c Hin. unfold replace_char in Hin.
  apply in_flat_map in Hin as (c0 & Hin0 & Hin).
  destruct (char_eqb c0 " ") eqn:C; [destruct Hin|].
  destruct Hin as [<- | []]. rewrite forallb_forall in P.
  apply alnum_of_plain; [apply P, Hin0 | exact C].
Qed.

(** X6.  The shape of a display name and of a class name:
    [normalize_name] returns letters, digits and spaces only, with no
    space at either end and no two spaces side by side, and
    [format_for_class_name] returns letters and digits only. *)
Theorem class_name_shape (name : str) :
  forallb plain_char (normalize_name name) = true /\
  strip (py " ") (normalize_name name) = normalize_name name /\
  contains (py "  ") (normalize_name name) = false /\
  forallb is_alnum (format_for_class_name name) = true.
Proof.
  destruct (token_underscores name true) as (Hn & Hl & Hc).
  set (tok := enum_name_format name true) in *.
  set (spaced := map (swap_char "_" " ") tok).
  assert (D : normalize_name name = title spaced).
  { rewrite normalize_name_display. apply display_map. }
  assert (R1 : Forall2 (fun c c' => char_eqb c' " " = char_eqb c "_")
                 tok spaced).
  { apply (map_related _ _ token_char); [|exact Hc].
    intros c H. apply (plain_char_of_token c H). }
  pose proof (title_related false spaced) as R2. fold (title spaced) in R2.
  rewrite <- D in R2.
  pose proof (normalize_name_plain name) as P.
  assert (Hn' : no_double (fun c => char_eqb c " "%char) true
                  (normalize_name name) = true).
  { rewrite (no_double_related _ _ true _ _ R2),
            (no_double_related _ _ true _ _ R1).
    exact Hn. }
  split; [exact P|]. split; [|split].
  - apply (strip_fixed " "%char _ Hn').
    apply (lstrip_fixed_related _ _ _ _ (related_rev _ _ _ _ R2)).
    apply (lstrip_fixed_related _ _ _ _ (related_rev _ _ _ _ R1)). exact Hl.
  - apply (no_double_contains (fun c => char_eqb c " "%char) " "%char true _
             eq_refl Hn').
  - apply class_name_alnum.
Qed.

(** ** What the builder returns *)

Lemma int16_raises (k : str) (e : exn) : int16 k = Raise e -> e = ValueError.
Proof.
  unfold int16. destruct (match rstrip int_space (lstrip int_space k) with
                          | [] => None | c :: r => _ end);
    [discriminate | intros [= <-]; reflexivity].
Qed.

Lemma parses_false (k : str) : parses k = false -> int16 k = Raise ValueError.
Proof.
  unfold parses. destruct (int16 k) as [n|e] eqn:E; [discriminate|].
  intros _. rewrite (int16_raises k e E). reflexivity.
Qed.

Lemma normalize_scale_loop_fails (items : dict scale_props) (acc : dict Z) :
  scale_defs_ok items = false ->
  normalize_scale_loop items acc = Raise ValueError.
Proof.
  revert acc. induction items as [|[k p] items IH]; intros acc H;
    [discriminate|].
  simpl in H. cbn [normalize_scale_loop].
  destruct (parses k) eqn:P.
  - destruct (parses_ok _ P) as [n ->]. cbn [bind]. apply IH. exact H.
  - rewrite (parses_false _ P). reflexivity.
Qed.

Lemma normalize_scale_definition_fails (defs : dict scale_props) :
  scale_defs_ok defs = false ->
  normalize_scale_definition defs = Raise ValueError.
Proof.
  intros H. unfold normalize_scale_definition.
  rewrite (normalize_scale_loop_fails _ [] H). reflexivity.
Qed.

















(** ** The tables of a build *)

Lemma default_scale_groups_fails (items : dict (dict scale_props))
  (acc : dict (dict Z)) :
  forallb (fun g => scale_defs_ok (snd g)) items = false ->
  default_scale_groups items acc = Raise ValueError.
Proof.
  revert acc. induction items as [|[k defs] items IH]; intros acc H;
    [discriminate|].
  simpl in H. cbn [default_scale_groups].
  destruct (scale_defs_ok defs) eqn:E.
  - destruct (normalize_scale_definition_total _ E) as [d ->]. cbn [bind].
    apply IH. exact H.
  - rewrite (normalize_scale_definition_fails _ E). reflexivity.
Qed.

Lemma sensor_step_fails (st : dict (dict Z) * dict sensor)
  (item : str * sensor_props) :
  sensor_ok item = false -> sensor_step st item = Raise ValueError.
Proof.
  destruct st as [scales sensors]. destruct item as [k p].
  unfold sensor_ok, sensor_step. simpl.
  destruct (parses k) eqn:P.
  - destruct (parses_ok _ P) as [n ->]. cbn [bind]. simpl.
    destruct (sensor_scales p) as [name|defs]; [discriminate|].
    intros E. rewrite (normalize_scale_definition_fails _ E). reflexivity.
  - intros _. rewrite (parses_false _ P). reflexivity.
Qed.

Lemma sensor_loop_fails (items : dict sensor_props)
  (st : dict (dict Z) * dict sensor) :
  forallb sensor_ok items = false -> sensor_loop items st = Raise ValueError.
Proof.
  revert st. induction items as [|item items IH]; intros st H;
    [discriminate|].
  simpl in H. cbn [sensor_loop].
  destruct (sensor_ok item) eqn:E.
  - destruct (sensor_step_total st _ E) as [st1 ->]. cbn [bind].
    apply IH. exact H.
  - rewrite (sensor_step_fails st _ E). reflexivity.
Qed.

Lemma build_raises (default_scales : dict (dict scale_props))
  (sensor_types : dict sensor_props) :
  documents_ok default_scales sensor_types = false ->
  build default_scales sensor_types = Raise ValueError.
Proof.
  unfold documents_ok, build. intros H.
  destruct (forallb (fun g => scale_defs_ok (snd g)) default_scales) eqn:D.
  - destruct (default_scale_groups_total _ [] D) as [scales0 ->].
    cbn [bind]. simpl in H.
    rewrite (sensor_loop_fails _ (scales0, []) H). reflexivity.
  - rewrite (default_scale_groups_fails _ [] D). reflexivity.
Qed.

Lemma build_returns (default_scales : dict (dict scale_props))
  (sensor_types : dict sensor_props) :
  documents_ok default_scales sensor_types = true ->
  exists sc0 sc1 se1,
    default_scale_groups default_scales [] = Ok sc0 /\
    sensor_loop sensor_types (sc0, []) = Ok (sc1, se1) /\
    build default_scales sensor_types = Ok (sort_dict sc1, sort_dict se1).
Proof.
  unfold documents_ok, build. intros H.
  apply andb_true_iff in H as [Hd Hs].
  destruct (default_scale_groups_total _ [] Hd) as [sc0 E0].
  destruct (sensor_loop_total _ (sc0, []) Hs) as [[sc1 se1] E1].
  exists sc0, sc1, se1. rewrite E0. cbn [bind]. rewrite E1. auto.
Qed.









(** ** How the script ends *)

Lemma run_checked_raises (c : bool) (p : process) (e : exn) :
  run_checked c p = Raise e -> e = CalledProcessError.
Proof.
  unfold run_checked. destruct (returncode p =? 0)%Z; [discriminate|].
  intros [= <-]. reflexivity.
Qed.

Lemma run_unchecked_output (p : process) (o : option str) :
  run_checked false p = Ok o -> o = None.
Proof.
  unfold run_checked. destruct (returncode p =? 0)%Z; [|discriminate].
  intros [= <-]. reflexivity.
Qed.

Lemma next_index_raises {A} (p : A -> bool) (l : list A) (e : exn) :
  next_index p l = Raise e ->
  e = StopIteration /\ forall x, In x l -> p x = false.
Proof.
  induction l as [|x l IH]; simpl.
  - intros [= <-]. split; [reflexivity | intros x []].
  - destruct (p x) eqn:E; [discriminate|].
    destruct (next_index p l) as [i|e']; cbn [bind]; [discriminate|].
    intros [= <-]. destruct (IH eq_refl) as [-> H]. split; [reflexivity|].
    intros y [<- | Hy]; [exact E | apply H, Hy].
Qed.

Lemma splice_raises (lines existing : list str) (e : exn) :
  splice lines existing = Raise e ->
  e = StopIteration /\ forall l, In l existing -> contains MARKER l = false.
Proof.
  unfold splice, manually_written_code_start_idx.
  destruct (next_index (contains MARKER) existing) as [i|e'] eqn:E;
    cbn [bind].
  - destruct (i + 6 <? List.length existing); discriminate.
  - intros [= <-]. apply (next_index_raises _ _ _ E).
Qed.

(** The file a successful [write_constants] leaves. *)
Lemma write_constants_file (lines : list str) (w w' : world) :
  write_constants lines w = (Ok tt, w') ->
  printed w' = printed w /\
  exists kept, const_file w' = Some (join [nl] (lines ++ kept)).
Proof.
  unfold write_constants, read_text.
  destruct (const_file w) as [text|]; [|discriminate].
  destruct (splice lines (splitlines text)) as [out|] eqn:S; [|discriminate].
  intros [= <-]. split; [reflexivity|].
  unfold splice in S.
  destruct (manually_written_code_start_idx (splitlines text)) as [i|];
    cbn [bind] in S; [|discriminate].
  destruct (i <? List.length (splitlines text)); injection S as <-.
  - eexists. reflexivity.
  - exists []. rewrite app_nil_r. reflexivity.
Qed.



Lemma format_constants_raises (t : tools) (w w' : world) (e : exn) :
  format_constants t w = (Raise e, w') -> e = CalledProcessError.
Proof.
  unfold format_constants.
  destruct (run_checked true (which_black t)) as [o|e'] eqn:E.
  - destruct (truthy o); [|discriminate].
    destruct (const_file w) as [text|]; [|intros [= <-]; reflexivity].
    destruct (black t text) as [p text'].
    destruct (run_checked false p) as [o'|e''] eqn:E'; [discriminate|].
    intros [= <- _]. apply (run_checked_raises _ _ _ E').
  - intros [= <- _]. apply (run_checked_raises _ _ _ E).
Qed.

Lemma check_repository_raises (t : tools) (w w' : world) (e : exn) :
  check_repository t w = (Raise e, w') -> e = CalledProcessError.
Proof.
  unfold check_repository.
  destruct (run_checked true (which_git t)) as [o|e'] eqn:E.
  - destruct (truthy o); [|discriminate].
    destruct (run_checked false (git_diff_stat t)) as [o'|e''] eqn:E'.
    + rewrite (run_unchecked_output _ _ E'). discriminate.
    + intros [= <- _]. apply (run_checked_raises _ _ _ E').
  - intros [= <- _]. apply (run_checked_raises _ _ _ E).
Qed.

Lemma write_constants_printed (lines : list str) (w : world) :
  printed (snd (write_constants lines w)) = printed w.
Proof.
  unfold write_constants, read_text.
  destruct (const_file w); [|reflexivity].
  destruct (splice lines (splitlines s)); reflexivity.
Qed.

Lemma format_constants_printed (t : tools) (w : world) :
  printed (snd (format_constants t w)) = printed w \/
  printed (snd (format_constants t w)) = printed w ++ [black_warning].
Proof.
  unfold format_constants.
  destruct (run_checked true (which_black t)) as [o|]; [|auto].
  destruct (truthy o); [|right; reflexivity].
  destruct (const_file w) as [text|]; [|auto].
  destruct (black t text) as [p text'].
  destruct (run_checked false p); auto.
Qed.

Lemma check_repository_printed (t : tools) (w : world) :
  printed (snd (check_repository t w)) = printed w \/
  printed (snd (check_repository t w)) = printed w ++ [git_warning].
Proof.
  unfold check_repository.
  destruct (run_checked true (which_git t)) as [o|]; [|auto].
  destruct (truthy o); [|right; reflexivity].
  destruct (run_checked false (git_diff_stat t)) as [o'|] eqn:E; [|auto].
  rewrite (run_unchecked_output _ _ E). auto.
Qed.

(** X14.  What the script prints: nothing but its two warnings, the one
    about black when [which] prints no path for it and the one about git
    likewise, each at most once and in this order; the message "Repo is
    dirty and needs to be committed!" is never printed. *)
Theorem main_prints (t : tools) (default_scales : dict (dict scale_props))
  (sensor_types : dict sensor_props) (w : world) :
  (exists said,
     printed (snd (main t default_scales sensor_types w)) = printed w ++ said /\
     (said = [] \/ said = [black_warning] \/ said = [git_warning] \/
      said = [black_warning; git_warning])) /\
  (~ In dirty_message (printed w) ->
   ~ In dirty_message (printed (snd (main t default_scales sensor_types w)))).
Proof.
  assert (S : exists said,
     printed (snd (main t default_scales sensor_types w)) = printed w ++ said /\
     (said = [] \/ said = [black_warning] \/ said = [git_warning] \/
      said = [black_warning; git_warning])).
  { unfold main.
    destruct (build default_scales sensor_types) as [[scales sensors]|e].
    2:{ exists []. rewrite app_nil_r. auto. }
    unfold finish, seq.
    pose proof (write_constants_printed (autogenerated_lines scales sensors) w)
      as P1.
    destruct (write_constants (autogenerated_lines scales sensors) w)
      as [[[]|e] w1]; cbn [snd] in *.
    2:{ exists []. rewrite app_nil_r. auto. }
    pose proof (format_constants_printed t w1) as P2.
    destruct (format_constants t w1) as [[[]|e] w2]; cbn [snd] in *.
    2:{ destruct P2 as [P2 | P2]; rewrite P2, P1;
          [exists []; rewrite app_nil_r | exists [black_warning]]; auto. }
    pose proof (check_repository_printed t w2) as P3.
    destruct (check_repository t w2) as [r w3]; cbn [snd] in *.
    destruct P2 as [P2 | P2], P3 as [P3 | P3]; rewrite P3, P2, P1.
    - exists []. rewrite app_nil_r. auto.
    - exists [git_warning]. auto.
    - exists [black_warning]. auto.
    - exists [black_warning; git_warning]. rewrite <- app_assoc. auto. }
  split; [exact S|].
  destruct S as (said & -> & Hs). intros N Hin.
  apply in_app_iff in Hin as [Hin | Hin]; [exact (N Hin)|].
  destruct Hs as [-> | [-> | [-> | ->]]]; simpl in Hin;
    repeat (destruct Hin as [Hin | Hin]; [discriminate Hin|]); exact Hin.
Qed.

Lemma main_prints_witness :
  ~ In dirty_message
      (printed (snd (main tools_present [] unresolved_sensor bare_world))).
Proof.
  apply (proj2 (main_prints tools_present [] unresolved_sensor bare_world)).
  intros [].
Defined.



(** ** One run after another *)

Lemma join_app (sep : str) (a b : list str) :
  a <> [] -> b <> [] ->
  join sep (a ++ b) = join sep a ++ sep ++ join sep b.
Proof.
  intros Ha Hb. induction a as [|x a IH]; [contradiction|].
  destruct a as [|y a].
  - destruct b as [|z b]; [contradiction|]. reflexivity.
  - change ((x :: y :: a) ++ b) with (x :: y :: (a ++ b)).
    rewrite !join_cons.
    change (y :: a ++ b) with ((y :: a) ++ b). rewrite IH by discriminate.
    rewrite <- !app_assoc. reflexivity.
Qed.

Lemma next_index_found {A} (p : A -> bool) (l : list A) (x : A) :
  In x l -> p x = true -> exists i, next_index p l = Ok i.
Proof.
  induction l as [|y l IH]; intros Hin Hp; [contradiction|].
  simpl. destruct (p y) eqn:E; [eauto|].
  destruct Hin as [-> | Hin]; [congruence|].
  destruct (IH Hin Hp) as [i ->]. cbn [bind]. eauto.
Qed.

(** The file made of lines that end with the end block holds the marker
    line, whatever the other lines are. *)
Lemma marker_line_written (gen kept : list str) :
  exists l, In l (splitlines (join [nl] ((gen ++ end_block) ++ kept))) /\
            contains MARKER l = true.
Proof.
  set (M := py "# **END OF AUTOGENERATED CONTENT** (DO NOT EDIT/REMOVE THIS COMMENT BLOCK AND DO NOT  #").
  exists M. split; [|vm_compute; reflexivity].
  assert (E : exists a b, a <> [] /\ b <> [] /\
                (gen ++ end_block) ++ kept = a ++ M :: b).
  { exists (gen ++ [[]; rule]), (skipn 3 end_block ++ kept).
    split; [intros H; apply app_eq_nil in H as [_ H]; discriminate|].
    split; [discriminate|].
    rewrite <- !app_assoc. reflexivity. }
  destruct E as (a & b & Ha & Hb & ->).
  rewrite (join_app [nl] a (M :: b) Ha) by discriminate.
  destruct b as [|y b]; [contradiction|].
  rewrite join_cons. cbn [app].
  rewrite splitlines_after_newline, (splitlines_line M _ eq_refl).
  apply in_or_app. right. left. reflexivity.
Qed.

(** X16.  One run after another: when the script has written the
    constants file from lines that end with the end block, the file holds
    the end marker, so the splice of the next run succeeds and writes the
    file again, whatever the autogenerated lines are (it fails neither on
    a missing file nor on a missing marker). *)
Theorem rerun_succeeds (gen lines' : list str) (w w1 : world) :
  write_constants (gen ++ end_block) w = (Ok tt, w1) ->
  exists w2, write_constants lines' w1 = (Ok tt, w2).
Proof.
  intros H.
  destruct (write_constants_file (gen ++ end_block) w w1 H) as (_ & kept & F).
  unfold write_constants, read_text. rewrite F.
  destruct (marker_line_written gen kept) as (l & Hin & Hl).
  destruct (next_index_found (contains MARKER) _ l Hin Hl) as [i Hi].
  rewrite (splice_found lines' _ (splitlines_no_break _) Hi). eauto.
Qed.

Lemma rerun_succeeds_witness :
  exists w2, write_constants [py "NEW = 0"] bare_world = (Ok tt, w2).
Proof.
  apply (rerun_succeeds [] [py "NEW = 0"] bare_world bare_world).
  vm_compute. reflexivity.
Defined.

(** ** The unit lists and the class definitions *)

Lemma in_scale_class_lines (g : str * dict Z) (scales : dict (dict Z))
  (sensors : dict sensor) (line : str) :
  In g scales -> In line (scale_class_lines (fst g) (snd g)) ->
  In line (body_lines scales sensors).
Proof.
  intros Hg Hl. unfold body_lines.
  do 4 (apply in_or_app; right). apply in_or_app. left.
  apply in_flat_map. exists g. split; assumption.
Qed.

(** X17.  The unit lists refer to what the file defines: when every
    scale group is a dictionary, every reference in a list of the unit
    index has the form [class name + "." + token] for a group of the table
    that has the token, and the autogenerated lines hold the head of that
    class and the line that gives the token its number. *)
Theorem unit_references_defined (scales : dict (dict Z))
  (sensors : dict sensor) :
  groups_are_dicts scales ->
  forall tok refs ref,
    In (tok, refs) (unit_name_to_enum_map scales) -> In ref refs ->
    exists g n,
      In g scales /\ In (tok, n) (snd g) /\
      ref = unit_ref (fst g) tok /\
      In (py "class " ++ format_for_class_name (fst g) ++
          py "(MultilevelSensorScaleType):") (body_lines scales sensors) /\
      In (py "    " ++ tok ++ py " = " ++ str_of_int n)
         (body_lines scales sensors).
Proof.
  intros H tok refs ref Hin Href.
  assert (N : NoDup (keys (unit_name_to_enum_map scales))).
  { rewrite unit_name_to_enum_map_value, keys_on_value.
    apply (Permutation_NoDup
             (Permutation_map fst
                (Permutation_sym (sorted_perm fst (collect_units scales))))).
    apply collect_units_nodup. }
  pose proof (dict_get_in _ _ _ N Hin) as G.
  rewrite (unit_name_to_enum_map_get tok H) in G.
  destruct (existsb (defines tok) scales); [|discriminate].
  injection G as <-.
  apply (Permutation_in _ (sorted_perm _ _)) in Href.
  unfold group_refs in Href.
  apply in_map_iff in Href as (g & <- & Hg).
  apply filter_In in Hg as [Hg D].
  unfold defines in D. apply existsb_str_eqb in D.
  apply in_map_iff in D as ([t n] & E & Hn). simpl in E. subst t.
  exists g, n. split; [exact Hg|]. split; [exact Hn|]. split; [reflexivity|].
  split; apply (in_scale_class_lines g scales sensors _ Hg);
    unfold scale_class_lines, generate_int_enum_class_definition.
  - left. reflexivity.
  - do 3 (apply in_or_app; right).
    apply (in_map (fun kv => py "    " ++ fst kv ++ py " = " ++ str_of_int (snd kv))
             _ _ Hn).
Qed.

Lemma unit_references_defined_witness :
  exists g n,
    In g sample_scales /\ In (py "FAHRENHEIT", n) (snd g) /\
    py "TemperatureScale.FAHRENHEIT" = unit_ref (fst g) (py "FAHRENHEIT") /\
    In (py "class " ++ format_for_class_name (fst g) ++
        py "(MultilevelSensorScaleType):") (body_lines sample_scales []) /\
    In (py "    " ++ py "FAHRENHEIT" ++ py " = " ++ str_of_int n)
       (body_lines sample_scales []).
Proof.
  assert (D : groups_are_dicts sample_scales).
  { repeat constructor; simpl; intros H;
      repeat (destruct H as [H | H]; [discriminate H|]); exact H. }
  apply (unit_references_defined sample_scales [] D (py "FAHRENHEIT")
           [py "TemperatureScale.FAHRENHEIT"]
           (py "TemperatureScale.FAHRENHEIT")).
  - vm_compute. right. left. reflexivity.
  - left. reflexivity.
Defined.

(** ** Lines that may stand above the end block *)

































(** ** The order of the raw documents *)
















(** ** Tokens of tokens, and the case of a label *)

Lemma token_no_paren :
  forall c, token_char c = true ->
    negb (char_eqb c "(") = true /\ clean_char c = true.
Proof. each_char. Qed.

Lemma slug_underscore_cases :
  forall c, slug_char c = true ->
    lower_char (upper_char (swap_char "-" "_" c)) = swap_char "-" "_" c /\
    char_eqb (swap_char "-" "_" c) "(" = false /\
    is_quote (swap_char "-" "_" c) = false /\
    char_eqb (swap_char "-" "_" c) "," = false /\
    ((is_dash c = true /\ disallowed (swap_char "-" "_" c) = true /\
      c = "-"%char) \/
     (is_dash c = false /\ disallowed (swap_char "-" "_" c) = false /\
      swap_char "-" "_" c = c)).
Proof.
  intros [[] [] [] [] [] [] [] []]; vm_compute; intros; try discriminate;
    intuition.
Qed.

Lemma sub_disallowed_underscores (b : bool) (d : str) :
  forallb slug_char d = true -> no_double is_dash b d = true ->
  sub_runs disallowed (py "-") b (map (swap_char "-" "_") d) = d.
Proof.
  revert b. induction d as [|c d IH]; intros b Hd Hn; simpl; [reflexivity|].
  simpl in Hd, Hn. apply andb_true_iff in Hd as [Hc Hd].
  destruct (slug_underscore_cases c Hc) as (_ & _ & _ & _ & [[D [X ->]]|[D [X Y]]]);
    rewrite D in Hn; rewrite X.
  - apply andb_true_iff in Hn as [Hb Hn]. destruct b; [discriminate|].
    simpl. f_equal. apply IH; assumption.
  - rewrite Y. f_equal. apply IH; assumption.
Qed.

Lemma dashed_of_token (d : str) :
  well_dashed d ->
  dashed (remove_parenthesis (upper (map (swap_char "-" "_") d))) = d.
Proof.
  intros (Hc & Hn & Hl).
  set (tok := upper (map (swap_char "-" "_") d)).
  assert (In_d : forall c, In c d -> slug_char c = true)
    by (rewrite forallb_forall in Hc; exact Hc).
  assert (Hlow : lower tok = map (swap_char "-" "_") d).
  { unfold tok, lower, upper. rewrite !map_map. apply map_ext_in.
    intros c Hin. apply (slug_underscore_cases c (In_d c Hin)). }
  assert (F : forall (p : ascii -> bool),
            (forall c, slug_char c = true -> p (swap_char "-" "_" c) = false) ->
            forallb (fun c => negb (p c)) (map (swap_char "-" "_") d) = true).
  { intros p Hp. apply forallb_forall. intros c Hin.
    apply in_map_iff in Hin as (c0 & <- & Hin).
    rewrite (Hp c0 (In_d c0 Hin)). reflexivity. }
  assert (Fu : forall (p : ascii -> bool),
            (forall c, p (upper_char c) = p c) ->
            (forall c, slug_char c = true -> p (swap_char "-" "_" c) = false) ->
            forallb (fun c => negb (p c)) tok = true).
  { intros p Hu Hp. apply forallb_forall. intros c Hin. unfold tok, upper in Hin.
    apply in_map_iff in Hin as (c1 & <- & Hin). rewrite Hu.
    apply in_map_iff in Hin as (c0 & <- & Hin).
    rewrite (Hp c0 (In_d c0 Hin)). reflexivity. }
  rewrite remove_parenthesis_none.
  2:{ apply (Fu (fun c => char_eqb c "("%char)); [each_char|].
      intros c H. apply (slug_underscore_cases c H). }
  unfold dashed.
  rewrite (sub_runs_none is_quote (py "-")).
  2:{ apply (Fu is_quote); [each_char|].
      intros c H. apply (slug_underscore_cases c H). }
  rewrite Hlow.
  rewrite (sub_runs_none is_quote).
  2:{ apply (F is_quote). intros c H. apply (slug_underscore_cases c H). }
  rewrite clean_numbers_none.
  2:{ apply (F (fun c => char_eqb c ","%char)).
      intros c H. apply (slug_underscore_cases c H). }
  rewrite sub_disallowed_underscores;
    [| exact Hc | apply no_double_weaken; exact Hn].
  rewrite sub_dash_fixed by (apply no_double_weaken; exact Hn).
  rewrite strip_dash, (lstrip_fixed _ _ Hn).
  unfold rstrip. rewrite Hl. apply rev_involutive.
Qed.

(** X20.  A token is its own token: [enum_name_format] applied to one of
    its results returns it, whatever the two flags; so the display name of
    a token is the token with spaces for the underscores, in title case
    (this is the scale name of a sensor with inline scales, also for the
    ids 87 and 88, whose tokens keep the parenthetical text). *)
Theorem enum_name_format_idempotent (name : str) (b b' : bool) :
  enum_name_format (enum_name_format name b) b' = enum_name_format name b /\
  normalize_name (enum_name_format name b)
  = title (replace_char "_"%char (py " ") (enum_name_format name b)).
Proof.
  assert (I : forall b', enum_name_format (enum_name_format name b) b'
                         = enum_name_format name b).
  { intros c.
    assert (T : enum_name_format (enum_name_format name b) true
                = enum_name_format name b).
    { destruct (enum_name_format_dashed name b) as (d & Hd & ->).
      rewrite <- map_map. fold (upper (map (swap_char "-" "_") d)).
      unfold enum_name_format. rewrite slugify_underscore.
      rewrite (dashed_of_token d Hd). reflexivity. }
    destruct c; [exact T|].
    assert (R : remove_parenthesis (enum_name_format name b)
                = enum_name_format name b).
    { apply remove_parenthesis_none.
      destruct (token_underscores name b) as (_ & _ & Hc).
      apply (forallb_impl _ _ _ (fun c H => proj1 (token_no_paren c H)) Hc). }
    set (tok := enum_name_format name b) in *.
    rewrite <- T at 2. unfold enum_name_format. rewrite R. reflexivity. }
  split; [apply I|].
  unfold normalize_name. rewrite (I true). reflexivity.
Qed.

Lemma lower_char_classes :
  forall c, char_eqb (lower_char c) "(" = char_eqb c "(" /\
            char_eqb (lower_char c) ")" = char_eqb c ")" /\
            is_quote (lower_char c) = is_quote c /\
            char_eqb (upper_char c) "(" = char_eqb c "(" /\
            char_eqb (upper_char c) ")" = char_eqb c ")" /\
            is_quote (upper_char c) = is_quote c.
Proof.
  intros [[] [] [] [] [] [] [] []]; vm_compute; intuition.
Qed.

Lemma remove_parenthesis_map (f : ascii -> ascii) (b : bool) (s : str) :
  (forall c, char_eqb (f c) "(" = char_eqb c "(" /\
             char_eqb (f c) ")" = char_eqb c ")") ->
  remove_parenthesis_from b (map f s) = map f (remove_parenthesis_from b s).
Proof.
  intros Hf. revert b. induction s as [|c s IH]; intros b; [reflexivity|].
  cbn [map remove_parenthesis_from].
  destruct (Hf c) as [Ho Hc]. rewrite Ho, Hc.
  assert (E : existsb (char_eqb ")"%char) (map f s)
              = existsb (char_eqb ")"%char) s).
  { clear -Hf. induction s as [|x s IH]; [reflexivity|].
    cbn [map existsb]. rewrite IH. f_equal. unfold char_eqb in *.
    rewrite (Ascii.eqb_sym _ (f x)), (Ascii.eqb_sym _ x). apply (Hf x). }
  rewrite E. destruct b.
  - destruct (char_eqb c ")"); apply IH.
  - destruct (char_eqb c "(" && existsb (char_eqb ")"%char) s);
      [apply IH|]. simpl. rewrite IH. reflexivity.
Qed.

Lemma sub_runs_map (p : ascii -> bool) (rep : str) (f : ascii -> ascii)
  (b : bool) (s : str) :
  (forall c, p (f c) = p c) -> map f rep = rep ->
  sub_runs p rep b (map f s) = map f (sub_runs p rep b s).
Proof.
  intros Hp Hr. revert b. induction s as [|c s IH]; intros b; [reflexivity|].
  cbn [map sub_runs]. rewrite Hp. destruct (p c).
  - destruct b; [apply IH|]. rewrite map_app, Hr, IH. reflexivity.
  - simpl. rewrite IH. reflexivity.
Qed.

(** X21.  On a label of ASCII characters without an ampersand, where
    [slugify] has no character reference to decode, the case of the label
    does not matter: the label, the label in upper case and the label in
    lower case have the same token, the same display name and the same
    class name. *)
Theorem token_ignores_case (name : str) (b : bool) :
  slug_text name = true ->
  enum_name_format (upper name) b = enum_name_format name b /\
  enum_name_format (lower name) b = enum_name_format name b /\
  normalize_name (upper name) = normalize_name name /\
  normalize_name (lower name) = normalize_name name /\
  format_for_class_name (upper name) = format_for_class_name name /\
  format_for_class_name (lower name) = format_for_class_name name.
Proof.
  intros _.
  assert (S : forall f : ascii -> ascii,
            (forall c, lower_char (f c) = lower_char c) ->
            (forall c, is_quote (f c) = is_quote c) ->
            map f (py "-") = py "-" ->
            forall s, slugify (map f s) (py "_") = slugify s (py "_")).
  { intros f Hl Hq Hd s. unfold slugify.
    rewrite (sub_runs_map is_quote (py "-") f false s Hq Hd).
    unfold lower. rewrite map_map.
    rewrite (map_ext _ _ Hl). reflexivity. }
  assert (E : forall f : ascii -> ascii,
            (forall c, lower_char (f c) = lower_char c) ->
            (forall c, is_quote (f c) = is_quote c) ->
            map f (py "-") = py "-" ->
            (forall c, char_eqb (f c) "(" = char_eqb c "(" /\
                       char_eqb (f c) ")" = char_eqb c ")") ->
            forall c, enum_name_format (map f name) c = enum_name_format name c).
  { intros f Hl Hq Hd Hp c. unfold enum_name_format. destruct c.
    - unfold remove_parenthesis. rewrite (remove_parenthesis_map f false name Hp).
      rewrite (S f Hl Hq Hd). reflexivity.
    - rewrite (S f Hl Hq Hd). reflexivity. }
  assert (U : forall c, enum_name_format (upper name) c = enum_name_format name c).
  { apply (E upper_char lower_upper_char).
    - intros c. apply (lower_char_classes c).
    - reflexivity.
    - intros c. split; apply (lower_char_classes c). }
  assert (L : forall c, enum_name_format (lower name) c = enum_name_format name c).
  { apply (E lower_char lower_lower_char).
    - intros c. apply (lower_char_classes c).
    - reflexivity.
    - intros c. split; apply (lower_char_classes c). }
  split; [apply U|]. split; [apply L|].
  unfold format_for_class_name, normalize_name. rewrite U, L.
  repeat split; reflexivity.
Qed.

Lemma token_ignores_case_witness :
  enum_name_format (upper (py "Air temperature (C)")) false
  = enum_name_format (py "Air temperature (C)") false /\
  enum_name_format (lower (py "Air temperature (C)")) false
  = enum_name_format (py "Air temperature (C)") false /\
  normalize_name (upper (py "Air temperature (C)"))
  = normalize_name (py "Air temperature (C)") /\
  normalize_name (lower (py "Air temperature (C)"))
  = normalize_name (py "Air temperature (C)") /\
  format_for_class_name (upper (py "Air temperature (C)"))
  = format_for_class_name (py "Air temperature (C)") /\
  format_for_class_name (lower (py "Air temperature (C)"))
  = format_for_class_name (py "Air temperature (C)").
Proof.
  apply (token_ignores_case (py "Air temperature (C)") false).
  reflexivity.
Defined.

(** ** What is rendered of the sensors *)

Lemma startswith_app (p b : str) : startswith p (p ++ b) = true.
Proof.
  induction p as [|c p IH]; [reflexivity|].
  simpl. rewrite char_eqb_refl. exact IH.
Qed.

Lemma contains_app_right (p a s : str) :
  contains p s = true -> contains p (a ++ s) = true.
Proof.
  intros H. induction a as [|c a IH]; [exact H|].
  cbn [app contains]. rewrite IH. apply orb_true_r.
Qed.

Lemma contains_startswith (p s : str) :
  startswith p s = true -> contains p s = true.
Proof. intros H. destruct s; cbn [contains]; rewrite H; reflexivity. Qed.

Lemma contains_middle (p a b : str) : contains p (a ++ p ++ b) = true.
Proof. apply contains_app_right, contains_startswith, startswith_app. Qed.

Lemma fold_left_append {A} (g : A -> str) (l : list A) (init : str) :
  fold_left (fun line x => line ++ g x) l init
  = init ++ List.concat (map g l).
Proof.
  revert init. induction l as [|x l IH]; intros init; simpl.
  - rewrite app_nil_r. reflexivity.
  - rewrite IH, <- app_assoc. reflexivity.
Qed.

(** The map line holds the entry of every sensor. *)
Lemma map_line_entry (sensors : dict sensor) (kv : str * sensor) :
  In kv sensors ->
  contains (map_entry kv) (multilevel_sensor_type_to_scale_map_line sensors)
  = true.
Proof.
  intros Hin. unfold multilevel_sensor_type_to_scale_map_line.
  rewrite (fold_left_append map_entry).
  destruct (in_split _ _ Hin) as (pre & post & ->).
  rewrite map_app, concat_app. cbn [map List.concat].
  rewrite <- !app_assoc.
  rewrite (app_assoc _ (List.concat (map map_entry pre))).
  apply contains_middle.
Qed.

(** X22.  Every sensor of the table is rendered: the autogenerated lines
    hold its property line with the label as it was, its member line in
    the sensor-type class with its id, and the sensor-to-scale map, which
    holds an entry that gives the sensor the class of its scale name. *)
Theorem sensors_rendered (scales : dict (dict Z)) (sensors : dict sensor)
  (t : str) (e : sensor) :
  In (t, e) sensors ->
  In (t ++ py "_PROPERTY = " ++ [dq] ++ label e ++ [dq])
     (body_lines scales sensors) /\
  In (py "    " ++ t ++ py " = " ++ str_of_int (id e))
     (body_lines scales sensors) /\
  In (multilevel_sensor_type_to_scale_map_line sensors)
     (body_lines scales sensors) /\
  contains (map_entry (t, e))
    (multilevel_sensor_type_to_scale_map_line sensors) = true.
Proof.
  intros Hin. unfold body_lines. split; [|split; [|split]].
  - apply in_or_app. right. apply in_or_app. left.
    apply (in_map (fun kv => fst kv ++ py "_PROPERTY = " ++ [dq] ++
                             label (snd kv) ++ [dq]) _ _ Hin).
  - do 2 (apply in_or_app; right). apply in_or_app. left.
    unfold generate_int_enum_class_definition.
    do 3 (apply in_or_app; right).
    apply (in_map (fun kv => py "    " ++ fst kv ++ py " = " ++
                             str_of_int (id (snd kv))) _ _ Hin).
  - do 5 (apply in_or_app; right). apply in_or_app. left. left. reflexivity.
  - apply (map_line_entry sensors (t, e) Hin).
Qed.

Lemma sensors_rendered_witness :
  In (py "TEMPERATURE" ++ py "_PROPERTY = " ++ [dq] ++
      py "Temperature (Water)" ++ [dq])
     (body_lines temperature_scale_table temperature_sensor_table) /\
  In (py "    " ++ py "TEMPERATURE" ++ py " = " ++ str_of_int 2)
     (body_lines temperature_scale_table temperature_sensor_table) /\
  In (multilevel_sensor_type_to_scale_map_line temperature_sensor_table)
     (body_lines temperature_scale_table temperature_sensor_table) /\
  contains
    (map_entry (py "TEMPERATURE",
                {| id := 2; label := py "Temperature (Water)";
                   scale := py "Temperature" |}))
    (multilevel_sensor_type_to_scale_map_line temperature_sensor_table) = true.
Proof.
  apply (sensors_rendered temperature_scale_table temperature_sensor_table
           (py "TEMPERATURE")
           {| id := 2; label := py "Temperature (Water)";
              scale := py "Temperature" |}).
  left. reflexivity.
Defined.

(** * Scale resolution on the built tables *)








(** * The script on the documents as they were parsed *)

(** ** The builder on the documents as they were parsed *)

Lemma normalize_scale_loop_decode (its : dict json) (defs : dict scale_props) :
  dict_of scale_props_of its = Some defs ->
  forall acc, normalize_scale_loop_json its acc = normalize_scale_loop defs acc.
Proof.
  revert defs. induction its as [|[k v] its IH]; intros defs.
  - intros [= <-]. reflexivity.
  - cbn [dict_of]. destruct (scale_props_of v) as [p|] eqn:P; [|discriminate].
    destruct (dict_of scale_props_of its) as [r|]; [|discriminate].
    intros [= <-] acc. cbn [normalize_scale_loop_json normalize_scale_loop].
    destruct (int16 k) as [n|e]; [|reflexivity]. cbn [bind].
    destruct v as [| | | |l|d]; try discriminate. cbn [scale_props_of] in P.
    cbn [getitem]. destruct (dict_get (py "label") d) as [[| | |s| |]|];
      try discriminate.
    injection P as <-. cbn [bind name_text scale_label]. apply (IH _ eq_refl).
Qed.

Lemma normalize_scale_definition_decode (v : json) (defs : dict scale_props) :
  scale_defs_of v = Some defs ->
  normalize_scale_definition_json v = normalize_scale_definition defs.
Proof.
  destruct v as [| | | |l|d]; try discriminate. cbn [scale_defs_of].
  intros H. unfold normalize_scale_definition_json, normalize_scale_definition.
  cbn [dict_items bind]. rewrite (normalize_scale_loop_decode _ _ H). reflexivity.
Qed.

Lemma default_scale_groups_decode (its : dict json)
  (groups : dict (dict scale_props)) :
  dict_of scale_defs_of its = Some groups ->
  forall acc, default_scale_groups_json its acc
              = default_scale_groups groups acc.
Proof.
  revert groups. induction its as [|[k v] its IH]; intros groups.
  - intros [= <-]. reflexivity.
  - cbn [dict_of]. destruct (scale_defs_of v) as [defs|] eqn:P; [|discriminate].
    destruct (dict_of scale_defs_of its) as [r|]; [|discriminate].
    intros [= <-] acc. cbn [default_scale_groups_json default_scale_groups].
    rewrite (normalize_scale_definition_decode _ _ P).
    destruct (normalize_scale_definition defs); [|reflexivity].
    cbn [bind]. apply (IH _ eq_refl).
Qed.

Lemma sensor_step_decode (st : dict (dict Z) * dict sensor) (k : str)
  (v : json) (p : sensor_props) :
  sensor_props_of v = Some p ->
  sensor_step_json st (k, v) = sensor_step st (k, p).
Proof.
  destruct st as [scales sensors].
  destruct v as [| | | |l|d]; try discriminate. cbn [sensor_props_of].
  unfold sensor_step_json, sensor_step.
  destruct (int16 k) as [n|e]; [|reflexivity]. cbn [bind getitem].
  destruct (dict_get (py "scales") d) as [s|]; [|discriminate].
  destruct (dict_get (py "label") d) as [[| | |lab| |]|]; try discriminate.
  cbn [bind name_text].
  destruct (scale_ref_of s) as [ref|] eqn:R; [|discriminate].
  intros [= <-]. cbn [sensor_scales sensor_label].
  destruct s as [| | |name|l|defs]; try discriminate.
  - injection R as <-. reflexivity.
  - cbn [scale_ref_of] in R.
    destruct (scale_defs_of (JObject defs)) as [sd|] eqn:D; [|discriminate].
    injection R as <-.
    rewrite (normalize_scale_definition_decode _ _ D). reflexivity.
Qed.

Lemma sensor_loop_decode (its : dict json) (sensor_types : dict sensor_props) :
  dict_of sensor_props_of its = Some sensor_types ->
  forall st, sensor_loop_json its st = sensor_loop sensor_types st.
Proof.
  revert sensor_types. induction its as [|[k v] its IH]; intros sensor_types.
  - intros [= <-]. reflexivity.
  - cbn [dict_of]. destruct (sensor_props_of v) as [p|] eqn:P; [|discriminate].
    destruct (dict_of sensor_props_of its) as [r|]; [|discriminate].
    intros [= <-] st. cbn [sensor_loop_json sensor_loop].
    rewrite (sensor_step_decode st k _ _ P).
    destruct (sensor_step st (k, p)); [|reflexivity].
    cbn [bind]. apply (IH _ eq_refl).
Qed.

Lemma build_json_decode (default_scales sensor_types : json)
  (ds : dict (dict scale_props)) (st : dict sensor_props) :
  default_scales_of default_scales = Some ds ->
  sensor_types_of sensor_types = Some st ->
  build_json default_scales sensor_types = build ds st.
Proof.
  destruct default_scales as [| | | |l|d]; try discriminate.
  destruct sensor_types as [| | | |l'|d']; try discriminate.
  cbn [default_scales_of sensor_types_of]. intros Hd Hs.
  unfold build_json, build. cbn [dict_items bind].
  rewrite (default_scale_groups_decode _ _ Hd).
  destruct (default_scale_groups ds []); [|reflexivity]. cbn [bind].
  rewrite (sensor_loop_decode _ _ Hs). reflexivity.
Qed.

(** A build that returns has read documents of the expected form. *)
Lemma normalize_scale_loop_json_returns (its : dict json) (acc d : dict Z) :
  normalize_scale_loop_json its acc = Ok d ->
  exists defs, dict_of scale_props_of its = Some defs.
Proof.
  revert acc. induction its as [|[k v] its IH]; intros acc; [intros _; exists []; reflexivity|].
  cbn [normalize_scale_loop_json].
  destruct (int16 k) as [n|e]; [|discriminate]. cbn [bind].
  destruct v as [| | | |l|o]; try discriminate. cbn [getitem].
  destruct (dict_get (py "label") o) as [[| | |s| |]|] eqn:L; try discriminate.
  cbn [bind name_text]. intros H. destruct (IH _ H) as [defs E].
  cbn [dict_of scale_props_of]. rewrite L, E. eauto.
Qed.

Lemma normalize_scale_definition_json_returns (v : json) (d : dict Z) :
  normalize_scale_definition_json v = Ok d ->
  exists defs, scale_defs_of v = Some defs.
Proof.
  unfold normalize_scale_definition_json.
  destruct v as [| | | |l|o]; try discriminate. cbn [dict_items bind].
  destruct (normalize_scale_loop_json o []) as [d'|] eqn:E; [|discriminate].
  intros _. apply (normalize_scale_loop_json_returns _ _ _ E).
Qed.

Lemma default_scale_groups_json_returns (its : dict json)
  (acc scales : dict (dict Z)) :
  default_scale_groups_json its acc = Ok scales ->
  exists groups, dict_of scale_defs_of its = Some groups.
Proof.
  revert acc. induction its as [|[k v] its IH]; intros acc; [intros _; exists []; reflexivity|].
  cbn [default_scale_groups_json].
  destruct (normalize_scale_definition_json v) as [d|] eqn:E; [|discriminate].
  cbn [bind]. intros H. destruct (IH _ H) as [groups G].
  destruct (normalize_scale_definition_json_returns _ _ E) as [defs D].
  cbn [dict_of]. rewrite D, G. eauto.
Qed.

Lemma sensor_step_json_returns (st st' : dict (dict Z) * dict sensor)
  (k : str) (v : json) :
  sensor_step_json st (k, v) = Ok st' ->
  exists p, sensor_props_of v = Some p.
Proof.
  destruct st as [scales sensors]. unfold sensor_step_json.
  destruct (int16 k) as [n|e]; [|discriminate]. cbn [bind].
  destruct v as [| | | |l|o]; try discriminate. cbn [getitem].
  destruct (dict_get (py "scales") o) as [s|] eqn:S; [|discriminate].
  cbn [bind].
  destruct (dict_get (py "label") o) as [[| | |lab| |]|] eqn:L;
    try discriminate.
  cbn [bind name_text sensor_props_of]. rewrite S, L.
  destruct s as [| | |name|l|defs]; try discriminate;
    try (cbn [scale_ref_of option_map]; eauto; fail).
  destruct (normalize_scale_definition_json (JObject defs)) as [d|] eqn:E;
    [|discriminate].
  destruct (normalize_scale_definition_json_returns _ _ E) as [sd D].
  intros _. cbn [scale_ref_of]. rewrite D. cbn [option_map]. eauto.
Qed.

Lemma sensor_loop_json_returns (its : dict json)
  (st st' : dict (dict Z) * dict sensor) :
  sensor_loop_json its st = Ok st' ->
  exists sensor_types, dict_of sensor_props_of its = Some sensor_types.
Proof.
  revert st. induction its as [|[k v] its IH]; intros st; [intros _; exists []; reflexivity|].
  cbn [sensor_loop_json].
  destruct (sensor_step_json st (k, v)) as [st1|] eqn:E; [|discriminate].
  cbn [bind]. intros H. destruct (IH _ H) as [r R].
  destruct (sensor_step_json_returns _ _ _ _ E) as [p P].
  cbn [dict_of]. rewrite P, R. eauto.
Qed.

Lemma build_json_returns (default_scales sensor_types : json)
  (tables : dict (dict Z) * dict sensor) :
  build_json default_scales sensor_types = Ok tables ->
  exists ds st,
    default_scales_of default_scales = Some ds /\
    sensor_types_of sensor_types = Some st.
Proof.
  unfold build_json.
  destruct default_scales as [| | | |l|d]; try discriminate. cbn [dict_items bind].
  destruct (default_scale_groups_json d []) as [sc|] eqn:E0; [|discriminate].
  cbn [bind].
  destruct sensor_types as [| | | |l'|d']; try discriminate. cbn [dict_items bind].
  destruct (sensor_loop_json d' (sc, [])) as [st1|] eqn:E1; [|discriminate].
  intros _.
  destruct (default_scale_groups_json_returns _ _ _ E0) as [ds Hd].
  destruct (sensor_loop_json_returns _ _ _ E1) as [st Hs].
  exists ds, st. split; assumption.
Qed.

(** The builder raises nothing but the four exceptions of [int], of the
    subscripts, of [items()] and of the name functions. *)
Lemma normalize_scale_loop_json_raises (its : dict json) (acc : dict Z)
  (e : exn) :
  normalize_scale_loop_json its acc = Raise e -> build_error e = true.
Proof.
  revert acc. induction its as [|[k v] its IH]; intros acc; [discriminate|].
  cbn [normalize_scale_loop_json].
  destruct (int16 k) as [n|e'] eqn:K;
    [|rewrite (int16_raises k e' K); intros [= <-]; reflexivity].
  cbn [bind].
  destruct v as [| | | |l|o]; try (intros [= <-]; reflexivity). cbn [getitem].
  destruct (dict_get (py "label") o) as [[| | |s| |]|];
    try (intros [= <-]; reflexivity).
  cbn [bind name_text]. apply IH.
Qed.

Lemma normalize_scale_definition_json_raises (v : json) (e : exn) :
  normalize_scale_definition_json v = Raise e -> build_error e = true.
Proof.
  unfold normalize_scale_definition_json.
  destruct v as [| | | |l|o]; try (intros [= <-]; reflexivity).
  cbn [dict_items bind].
  destruct (normalize_scale_loop_json o []) as [d|e'] eqn:E; [discriminate|].
  intros [= <-]. apply (normalize_scale_loop_json_raises _ _ _ E).
Qed.

Lemma default_scale_groups_json_raises (its : dict json)
  (acc : dict (dict Z)) (e : exn) :
  default_scale_groups_json its acc = Raise e -> build_error e = true.
Proof.
  revert acc. induction its as [|[k v] its IH]; intros acc; [discriminate|].
  cbn [default_scale_groups_json].
  destruct (normalize_scale_definition_json v) as [d|e'] eqn:E.
  - cbn [bind]. apply IH.
  - intros [= <-]. apply (normalize_scale_definition_json_raises _ _ E).
Qed.

Lemma sensor_step_json_raises (st : dict (dict Z) * dict sensor)
  (item : str * json) (e : exn) :
  sensor_step_json st item = Raise e -> build_error e = true.
Proof.
  destruct st as [scales sensors], item as [k v]. unfold sensor_step_json.
  destruct (int16 k) as [n|e'] eqn:K;
    [|rewrite (int16_raises k e' K); intros [= <-]; reflexivity].
  cbn [bind].
  destruct v as [| | | |l|o]; try (intros [= <-]; reflexivity). cbn [getitem].
  destruct (dict_get (py "scales") o) as [s|];
    [|intros [= <-]; reflexivity].
  cbn [bind].
  destruct (dict_get (py "label") o) as [[| | |lab| |]|];
    try (intros [= <-]; reflexivity).
  cbn [bind name_text].
  destruct s as [| | |name|l|defs]; try discriminate;
    (destruct (normalize_scale_definition_json _) as [d|e'] eqn:E;
     [discriminate|];
     intros [= <-]; apply (normalize_scale_definition_json_raises _ _ E)).
Qed.

Lemma sensor_loop_json_raises (its : dict json)
  (st : dict (dict Z) * dict sensor) (e : exn) :
  sensor_loop_json its st = Raise e -> build_error e = true.
Proof.
  revert st. induction its as [|item its IH]; intros st; [discriminate|].
  cbn [sensor_loop_json].
  destruct (sensor_step_json st item) as [st1|e'] eqn:E.
  - cbn [bind]. apply IH.
  - intros [= <-]. apply (sensor_step_json_raises _ _ _ E).
Qed.

Lemma build_json_raises (default_scales sensor_types : json) (e : exn) :
  build_json default_scales sensor_types = Raise e -> build_error e = true.
Proof.
  unfold build_json.
  destruct default_scales as [| | | |l|d]; try (intros [= <-]; reflexivity).
  cbn [dict_items bind].
  destruct (default_scale_groups_json d []) as [sc|e'] eqn:E0;
    [|intros [= <-]; apply (default_scale_groups_json_raises _ _ _ E0)].
  cbn [bind].
  destruct sensor_types as [| | | |l'|d']; try (intros [= <-]; reflexivity).
  cbn [dict_items bind].
  destruct (sensor_loop_json d' (sc, [])) as [st1|e'] eqn:E1; [discriminate|].
  intros [= <-]. apply (sensor_loop_json_raises _ _ _ E1).
Qed.

Lemma write_constants_raises (lines : list str) (w w' : world) (e : exn) :
  write_constants lines w = (Raise e, w') ->
  e = FileNotFoundError \/ e = StopIteration.
Proof.
  unfold write_constants, read_text.
  destruct (const_file w) as [text|]; [|intros [= <- _]; auto].
  destruct (splice lines (splitlines text)) as [out|e'] eqn:S; [discriminate|].
  intros [= <- _]. right. apply (splice_raises _ _ _ S).
Qed.

Lemma finish_raises (t : tools) (lines : list str) (w w' : world) (e : exn) :
  finish t lines w = (Raise e, w') ->
  e = FileNotFoundError \/ e = StopIteration \/ e = CalledProcessError.
Proof.
  unfold finish, seq.
  destruct (write_constants lines w) as [[[]|e1] w1] eqn:W.
  - destruct (format_constants t w1) as [[[]|e2] w2] eqn:F.
    + intros C. right. right. apply (check_repository_raises _ _ _ _ C).
    + intros [= <- _]. right. right.
      apply (format_constants_raises _ _ _ _ F).
  - intros [= <- _].
    destruct (write_constants_raises _ _ _ _ W) as [-> | ->]; auto.
Qed.

(** X9.  When the build fails.  On documents of the expected form (the
    shared scales a dict of dicts of scales, the sensor types a dict of
    sensors, every scale a dict with a string label, every sensor a dict
    with a string label and with scales that are a string or a dict of
    scales) the build on the parsed documents is the build above: it
    raises [ValueError] when a key is no hexadecimal number and returns
    its tables otherwise.  On documents of any other form it raises.
    Whenever the build raises, the script ends with that exception and
    leaves the constants file and the output as they were. *)
Theorem build_failures (default_scales sensor_types : json) :
  (forall ds st,
     default_scales_of default_scales = Some ds ->
     sensor_types_of sensor_types = Some st ->
     build_json default_scales sensor_types = build ds st /\
     (documents_ok ds st = false ->
      build_json default_scales sensor_types = Raise ValueError) /\
     (documents_ok ds st = true ->
      exists tables, build_json default_scales sensor_types = Ok tables)) /\
  (default_scales_of default_scales = None \/
   sensor_types_of sensor_types = None ->
   exists e, build_json default_scales sensor_types = Raise e) /\
  (forall e t w,
     build_json default_scales sensor_types = Raise e ->
     script t default_scales sensor_types w = (Raise e, w)).
Proof.
  split; [|split].
  - intros ds st Hd Hs.
    pose proof (build_json_decode _ _ _ _ Hd Hs) as E. rewrite E.
    split; [reflexivity|]. split.
    + apply build_raises.
    + intros H.
      destruct (build_returns _ _ H) as (sc0 & sc1 & se1 & _ & _ & B). eauto.
  - intros H.
    destruct (build_json default_scales sensor_types) as [tables|e] eqn:B;
      [|eauto].
    destruct (build_json_returns _ _ _ B) as (ds & st & Hd & Hs).
    rewrite Hd, Hs in H. destruct H; discriminate.
  - intros e t w B. unfold script. rewrite B. reflexivity.
Qed.

Lemma build_failures_witness :
  (build_json json_temperature_scales json_bad_id = Raise ValueError /\
   exists tables,
     build_json json_temperature_scales json_two_sensors = Ok tables) /\
  (exists e, build_json json_temperature_scales json_no_label = Raise e) /\
  (forall t w,
     script t json_temperature_scales json_no_label w = (Raise KeyError, w)).
Proof.
  split; [split|split].
  - destruct (proj1 (build_failures json_temperature_scales json_bad_id)
                _ _ eq_refl eq_refl) as (_ & H & _).
    apply H. reflexivity.
  - destruct (proj1 (build_failures json_temperature_scales json_two_sensors)
                _ _ eq_refl eq_refl) as (_ & _ & H).
    apply H. reflexivity.
  - apply (proj1 (proj2 (build_failures json_temperature_scales
                           json_no_label))).
    right. reflexivity.
  - intros t w.
    apply (proj2 (proj2 (build_failures json_temperature_scales
                           json_no_label))).
    reflexivity.
Defined.

(** What the builder raises on documents of another form: a missing label
    gives [KeyError], a label that is no string [TypeError], scales that
    are no dict and no string [AttributeError]. *)
Example build_json_samples :
  build_json json_temperature_scales json_no_label = Raise KeyError /\
  build_json json_temperature_scales json_number_label = Raise TypeError /\
  build_json json_temperature_scales json_list_scales = Raise AttributeError /\
  build_json JNull json_two_sensors = Raise AttributeError /\
  build_json json_temperature_scales json_bad_id = Raise ValueError.
Proof. repeat split; vm_compute; reflexivity. Qed.

(** X13.  The script never ends through [sys.exit]: whatever the parsed
    documents, the tools and the constants file, no run ends with
    [SystemExit]; so the exit status is 0 when the run ends without an
    exception and 1 in every other case. *)
Theorem script_exit_status (t : tools) (default_scales sensor_types : json)
  (w : world) :
  (forall code,
     fst (script t default_scales sensor_types w) <> Raise (SystemExit code)) /\
  (exit_status (fst (script t default_scales sensor_types w)) = 0%Z <->
   fst (script t default_scales sensor_types w) = Ok tt) /\
  (exit_status (fst (script t default_scales sensor_types w)) = 0%Z \/
   exit_status (fst (script t default_scales sensor_types w)) = 1%Z).
Proof.
  assert (N : forall code,
            fst (script t default_scales sensor_types w)
            <> Raise (SystemExit code)).
  { intros code. unfold script.
    destruct (build_json default_scales sensor_types)
      as [[scales sensors]|e] eqn:B.
    - destruct (finish t (autogenerated_lines scales sensors) w)
        as [[[]|e] w'] eqn:F; [discriminate|].
      cbn [fst]. intros [= ->].
      destruct (finish_raises _ _ _ _ _ F) as [H | [H | H]]; discriminate.
    - cbn [fst]. intros [= ->].
      pose proof (build_json_raises _ _ _ B). discriminate. }
  split; [exact N|].
  destruct (fst (script t default_scales sensor_types w)) as [[]|e].
  - split; [split; reflexivity | left; reflexivity].
  - destruct e; cbn [exit_status];
      try (split; [split; discriminate | right; reflexivity]).
    exfalso. apply (N code). reflexivity.
Qed.
